(** * D3D11 blend state: decoding and binding

    A shallow embedding of [src/d3d11/d3d11_blend.cpp]:
    the constructor of [D3D11BlendState], [GetDesc], [BindToContext] and the
    three static decoders [DecodeBlendMode], [DecodeBlendFactor] and
    [DecodeBlendOp].

    The C++ code writes to three pieces of state: the object itself
    ([this]), the rendering context it is bound to, and the global logger.
    They are gathered in one record, [World], and every function of the
    source is a computation in a state monad over it, with an error layer
    for [std::array::at], the only operation of the file that can throw. *)

From Stdlib Require Import ZArith List ListSet String Ascii Bool Lia.
From Stdlib Require Import DecimalString DecimalZ.
From Stdlib Require Import Floats.SpecFloat.
From ExtLib Require Import Structures.Monad Structures.MonadState
  Structures.MonadExc Data.Monads.StateMonad Data.Monads.EitherMonad.
Import ListNotations.
Import MonadNotation.
Local Open Scope Z_scope.
Local Open Scope monad_scope.
#[local] Existing Instance Monad_stateT.

(** ** Source API enumerations (d3d11.h)

    A C enumeration can hold any value of its underlying integer type, and
    the decoders have a path for values that are no enumerator, so the two
    source enumerations are integers. The enumerators carry the values the
    Direct3D 11 headers give them (12 and 13 are not assigned). *)

Definition D3D11_BLEND := Z.

Definition D3D11_BLEND_ZERO : D3D11_BLEND := 1.
Definition D3D11_BLEND_ONE : D3D11_BLEND := 2.
Definition D3D11_BLEND_SRC_COLOR : D3D11_BLEND := 3.
Definition D3D11_BLEND_INV_SRC_COLOR : D3D11_BLEND := 4.
Definition D3D11_BLEND_SRC_ALPHA : D3D11_BLEND := 5.
Definition D3D11_BLEND_INV_SRC_ALPHA : D3D11_BLEND := 6.
Definition D3D11_BLEND_DEST_ALPHA : D3D11_BLEND := 7.
Definition D3D11_BLEND_INV_DEST_ALPHA : D3D11_BLEND := 8.
Definition D3D11_BLEND_DEST_COLOR : D3D11_BLEND := 9.
Definition D3D11_BLEND_INV_DEST_COLOR : D3D11_BLEND := 10.
Definition D3D11_BLEND_SRC_ALPHA_SAT : D3D11_BLEND := 11.
Definition D3D11_BLEND_BLEND_FACTOR : D3D11_BLEND := 14.
Definition D3D11_BLEND_INV_BLEND_FACTOR : D3D11_BLEND := 15.
Definition D3D11_BLEND_SRC1_COLOR : D3D11_BLEND := 16.
Definition D3D11_BLEND_INV_SRC1_COLOR : D3D11_BLEND := 17.
Definition D3D11_BLEND_SRC1_ALPHA : D3D11_BLEND := 18.
Definition D3D11_BLEND_INV_SRC1_ALPHA : D3D11_BLEND := 19.

Definition D3D11_BLEND_OP := Z.

Definition D3D11_BLEND_OP_ADD : D3D11_BLEND_OP := 1.
Definition D3D11_BLEND_OP_SUBTRACT : D3D11_BLEND_OP := 2.
Definition D3D11_BLEND_OP_REV_SUBTRACT : D3D11_BLEND_OP := 3.
Definition D3D11_BLEND_OP_MIN : D3D11_BLEND_OP := 4.
Definition D3D11_BLEND_OP_MAX : D3D11_BLEND_OP := 5.

(** The declared domain of each enumeration: its enumerators. *)

Definition D3D11_BLEND_enumerators : list D3D11_BLEND :=
  [ D3D11_BLEND_ZERO; D3D11_BLEND_ONE;
    D3D11_BLEND_SRC_COLOR; D3D11_BLEND_INV_SRC_COLOR;
    D3D11_BLEND_SRC_ALPHA; D3D11_BLEND_INV_SRC_ALPHA;
    D3D11_BLEND_DEST_ALPHA; D3D11_BLEND_INV_DEST_ALPHA;
    D3D11_BLEND_DEST_COLOR; D3D11_BLEND_INV_DEST_COLOR;
    D3D11_BLEND_SRC_ALPHA_SAT;
    D3D11_BLEND_BLEND_FACTOR; D3D11_BLEND_INV_BLEND_FACTOR;
    D3D11_BLEND_SRC1_COLOR; D3D11_BLEND_INV_SRC1_COLOR;
    D3D11_BLEND_SRC1_ALPHA; D3D11_BLEND_INV_SRC1_ALPHA ].

Definition D3D11_BLEND_OP_enumerators : list D3D11_BLEND_OP :=
  [ D3D11_BLEND_OP_ADD; D3D11_BLEND_OP_SUBTRACT;
    D3D11_BLEND_OP_REV_SUBTRACT; D3D11_BLEND_OP_MIN; D3D11_BLEND_OP_MAX ].

Definition is_enumerator (domain : list Z) (v : Z) : bool :=
  existsb (Z.eqb v) domain.

(** ** Native enumerations (vulkan_core.h)

    The decoders only ever produce named enumerators, so the native side is
    an inductive type; [VkBlendFactor_value] and [VkBlendOp_value] give the
    integer each one stands for. *)

Inductive VkBlendFactor : Set :=
| VK_BLEND_FACTOR_ZERO
| VK_BLEND_FACTOR_ONE
| VK_BLEND_FACTOR_SRC_COLOR
| VK_BLEND_FACTOR_ONE_MINUS_SRC_COLOR
| VK_BLEND_FACTOR_DST_COLOR
| VK_BLEND_FACTOR_ONE_MINUS_DST_COLOR
| VK_BLEND_FACTOR_SRC_ALPHA
| VK_BLEND_FACTOR_ONE_MINUS_SRC_ALPHA
| VK_BLEND_FACTOR_DST_ALPHA
| VK_BLEND_FACTOR_ONE_MINUS_DST_ALPHA
| VK_BLEND_FACTOR_CONSTANT_COLOR
| VK_BLEND_FACTOR_ONE_MINUS_CONSTANT_COLOR
| VK_BLEND_FACTOR_CONSTANT_ALPHA
| VK_BLEND_FACTOR_ONE_MINUS_CONSTANT_ALPHA
| VK_BLEND_FACTOR_SRC_ALPHA_SATURATE
| VK_BLEND_FACTOR_SRC1_COLOR
| VK_BLEND_FACTOR_ONE_MINUS_SRC1_COLOR
| VK_BLEND_FACTOR_SRC1_ALPHA
| VK_BLEND_FACTOR_ONE_MINUS_SRC1_ALPHA.

Definition VkBlendFactor_value (f : VkBlendFactor) : Z :=
  match f with
  | VK_BLEND_FACTOR_ZERO => 0
  | VK_BLEND_FACTOR_ONE => 1
  | VK_BLEND_FACTOR_SRC_COLOR => 2
  | VK_BLEND_FACTOR_ONE_MINUS_SRC_COLOR => 3
  | VK_BLEND_FACTOR_DST_COLOR => 4
  | VK_BLEND_FACTOR_ONE_MINUS_DST_COLOR => 5
  | VK_BLEND_FACTOR_SRC_ALPHA => 6
  | VK_BLEND_FACTOR_ONE_MINUS_SRC_ALPHA => 7
  | VK_BLEND_FACTOR_DST_ALPHA => 8
  | VK_BLEND_FACTOR_ONE_MINUS_DST_ALPHA => 9
  | VK_BLEND_FACTOR_CONSTANT_COLOR => 10
  | VK_BLEND_FACTOR_ONE_MINUS_CONSTANT_COLOR => 11
  | VK_BLEND_FACTOR_CONSTANT_ALPHA => 12
  | VK_BLEND_FACTOR_ONE_MINUS_CONSTANT_ALPHA => 13
  | VK_BLEND_FACTOR_SRC_ALPHA_SATURATE => 14
  | VK_BLEND_FACTOR_SRC1_COLOR => 15
  | VK_BLEND_FACTOR_ONE_MINUS_SRC1_COLOR => 16
  | VK_BLEND_FACTOR_SRC1_ALPHA => 17
  | VK_BLEND_FACTOR_ONE_MINUS_SRC1_ALPHA => 18
  end.

Inductive VkBlendOp : Set :=
| VK_BLEND_OP_ADD
| VK_BLEND_OP_SUBTRACT
| VK_BLEND_OP_REVERSE_SUBTRACT
| VK_BLEND_OP_MIN
| VK_BLEND_OP_MAX.

Definition VkBlendOp_value (o : VkBlendOp) : Z :=
  match o with
  | VK_BLEND_OP_ADD => 0
  | VK_BLEND_OP_SUBTRACT => 1
  | VK_BLEND_OP_REVERSE_SUBTRACT => 2
  | VK_BLEND_OP_MIN => 3
  | VK_BLEND_OP_MAX => 4
  end.

(** [VkBool32] constants. *)
Definition VK_FALSE : bool := false.
Definition VK_TRUE : bool := true.

(** ** Fixed-size arrays

    [D3D11_BLEND_DESC::RenderTarget] is a C array of eight elements and
    [m_blendModes] a [std::array] of eight elements: the size is part of the
    type. [Array8.get] and [Array8.set] answer [None] outside [0, 8). *)

Module Array8.

Record t (A : Type) : Type := make
  { e0 : A; e1 : A; e2 : A; e3 : A; e4 : A; e5 : A; e6 : A; e7 : A }.

Arguments make {A} _ _ _ _ _ _ _ _.
Arguments e0 {A} _.
Arguments e1 {A} _.
Arguments e2 {A} _.
Arguments e3 {A} _.
Arguments e4 {A} _.
Arguments e5 {A} _.
Arguments e6 {A} _.
Arguments e7 {A} _.

Definition size : Z := 8.

Definition get {A} (a : t A) (i : Z) : option A :=
  match i with
  | 0 => Some (e0 a) | 1 => Some (e1 a) | 2 => Some (e2 a)
  | 3 => Some (e3 a) | 4 => Some (e4 a) | 5 => Some (e5 a)
  | 6 => Some (e6 a) | 7 => Some (e7 a)
  | _ => None
  end.

Definition set {A} (a : t A) (i : Z) (x : A) : option (t A) :=
  let 'make a0 a1 a2 a3 a4 a5 a6 a7 := a in
  match i with
  | 0 => Some (make x a1 a2 a3 a4 a5 a6 a7)
  | 1 => Some (make a0 x a2 a3 a4 a5 a6 a7)
  | 2 => Some (make a0 a1 x a3 a4 a5 a6 a7)
  | 3 => Some (make a0 a1 a2 x a4 a5 a6 a7)
  | 4 => Some (make a0 a1 a2 a3 x a5 a6 a7)
  | 5 => Some (make a0 a1 a2 a3 a4 x a6 a7)
  | 6 => Some (make a0 a1 a2 a3 a4 a5 x a7)
  | 7 => Some (make a0 a1 a2 a3 a4 a5 a6 x)
  | _ => None
  end.

Definition to_list {A} (a : t A) : list A :=
  [e0 a; e1 a; e2 a; e3 a; e4 a; e5 a; e6 a; e7 a].

Definition fill {A} (x : A) : t A := make x x x x x x x x.

End Array8.

(** ** Records of the two APIs

    The declarations of these structures are in headers (d3d11.h,
    dxvk_constant_state.h); the fields below are the ones the source file
    reads and writes, under the names it uses.

    Modelled from the spec: the field types. The flags ([BOOL] on the source
    side, [VkBool32] on the native side) are [bool], as in the data model of
    the specification; masks are integers, and [minSampleShading], a
    [float], is an IEEE 754 value of [spec_float]. *)

Record D3D11_RENDER_TARGET_BLEND_DESC : Type :=
  { BlendEnable : bool;
    SrcBlend : D3D11_BLEND;
    DestBlend : D3D11_BLEND;
    BlendOp : D3D11_BLEND_OP;
    SrcBlendAlpha : D3D11_BLEND;
    DestBlendAlpha : D3D11_BLEND;
    BlendOpAlpha : D3D11_BLEND_OP;
    RenderTargetWriteMask : Z }.

Record D3D11_BLEND_DESC : Type :=
  { AlphaToCoverageEnable : bool;
    IndependentBlendEnable : bool;
    RenderTarget : Array8.t D3D11_RENDER_TARGET_BLEND_DESC }.

Record DxvkBlendMode : Type :=
  { enableBlending : bool;
    colorSrcFactor : VkBlendFactor;
    colorDstFactor : VkBlendFactor;
    colorBlendOp : VkBlendOp;
    alphaSrcFactor : VkBlendFactor;
    alphaDstFactor : VkBlendFactor;
    alphaBlendOp : VkBlendOp;
    writeMask : Z }.

Record DxvkMultisampleState : Type :=
  { sampleMask : Z;
    enableAlphaToCoverage : bool;
    enableAlphaToOne : bool;
    enableSampleShading : bool;
    minSampleShading : spec_float }.

(** [0.0f] *)
Definition float_zero : spec_float := S754_zero false.

(** A [D3D11Device*]: the address it holds. *)
Definition D3D11Device_ptr := Z.

(** The data members of the class (d3d11_blend.h). *)
Record D3D11BlendState : Type :=
  { m_device : D3D11Device_ptr;
    m_desc : D3D11_BLEND_DESC;
    m_blendModes : Array8.t DxvkBlendMode;
    m_msState : DxvkMultisampleState }.

(** ** Field updates

    [x.f = v] on a structure. *)

Definition set_m_device (v : D3D11Device_ptr) (o : D3D11BlendState) :=
  {| m_device := v; m_desc := m_desc o;
     m_blendModes := m_blendModes o; m_msState := m_msState o |}.

Definition set_m_desc (v : D3D11_BLEND_DESC) (o : D3D11BlendState) :=
  {| m_device := m_device o; m_desc := v;
     m_blendModes := m_blendModes o; m_msState := m_msState o |}.

Definition set_m_blendModes (v : Array8.t DxvkBlendMode) (o : D3D11BlendState) :=
  {| m_device := m_device o; m_desc := m_desc o;
     m_blendModes := v; m_msState := m_msState o |}.

Definition set_m_msState (v : DxvkMultisampleState) (o : D3D11BlendState) :=
  {| m_device := m_device o; m_desc := m_desc o;
     m_blendModes := m_blendModes o; m_msState := v |}.

Definition set_sampleMask (v : Z) (s : DxvkMultisampleState) :=
  {| sampleMask := v;
     enableAlphaToCoverage := enableAlphaToCoverage s;
     enableAlphaToOne := enableAlphaToOne s;
     enableSampleShading := enableSampleShading s;
     minSampleShading := minSampleShading s |}.

Definition set_enableAlphaToCoverage (v : bool) (s : DxvkMultisampleState) :=
  {| sampleMask := sampleMask s;
     enableAlphaToCoverage := v;
     enableAlphaToOne := enableAlphaToOne s;
     enableSampleShading := enableSampleShading s;
     minSampleShading := minSampleShading s |}.

Definition set_enableAlphaToOne (v : bool) (s : DxvkMultisampleState) :=
  {| sampleMask := sampleMask s;
     enableAlphaToCoverage := enableAlphaToCoverage s;
     enableAlphaToOne := v;
     enableSampleShading := enableSampleShading s;
     minSampleShading := minSampleShading s |}.

Definition set_enableSampleShading (v : bool) (s : DxvkMultisampleState) :=
  {| sampleMask := sampleMask s;
     enableAlphaToCoverage := enableAlphaToCoverage s;
     enableAlphaToOne := enableAlphaToOne s;
     enableSampleShading := v;
     minSampleShading := minSampleShading s |}.

Definition set_minSampleShading (v : spec_float) (s : DxvkMultisampleState) :=
  {| sampleMask := sampleMask s;
     enableAlphaToCoverage := enableAlphaToCoverage s;
     enableAlphaToOne := enableAlphaToOne s;
     enableSampleShading := enableSampleShading s;
     minSampleShading := v |}.

(** ** The world the code runs in *)

(** Modelled from the spec: the rendering context ([DxvkContext], declared
    in dxvk_context.h). Only the two operations this file calls are
    specified; both are fire-and-forget, so a context is the list of the
    calls it has received, oldest first. *)
Inductive ContextCall : Type :=
| setBlendMode (attachment : Z) (blendMode : DxvkBlendMode)
| setMultisampleState (ms : DxvkMultisampleState).

Definition DxvkContext := list ContextCall.

(** The logger: the messages written so far, oldest first, each with the
    level of the [Logger] function that wrote it. *)
Inductive LogLevel : Set := LogLevel_Warn | LogLevel_Error.

Definition LogEntry : Type := LogLevel * string.

Record World : Type :=
  { this : D3D11BlendState;
    ctx : DxvkContext;
    logger : list LogEntry }.

Definition set_this (v : D3D11BlendState) (w : World) :=
  {| this := v; ctx := ctx w; logger := logger w |}.

Definition set_ctx (v : DxvkContext) (w : World) :=
  {| this := this w; ctx := v; logger := logger w |}.

Definition set_logger (v : list LogEntry) (w : World) :=
  {| this := this w; ctx := ctx w; logger := v |}.

(** What ends a computation early: [std::array::at] throwing
    [std::out_of_range], and a C array indexed outside its bounds. *)
Inductive Abort : Set :=
| std_out_of_range
| array_index_out_of_bounds.

Definition M : Type -> Type := stateT World (sum Abort).

Definition run {A} (m : M A) (w : World) : Abort + (A * World) :=
  runStateT m w.

Definition update (f : World -> World) : M unit :=
  w <- get ;; put (f w).

Definition read {A} (f : World -> A) : M A :=
  w <- get ;; ret (f w).

(** [for (uint32_t i = lo; i < hi; i++) body(i)], for a body that assigns
    neither [i] nor the bound: [hi - lo] iterations, none if [hi <= lo]. *)
Fixpoint for_count (n : nat) (i : Z) (body : Z -> M unit) : M unit :=
  match n with
  | O => ret tt
  | S n' => body i ;; for_count n' (i + 1) body
  end.

Definition for_loop (lo hi : Z) (body : Z -> M unit) : M unit :=
  for_count (Z.to_nat (hi - lo)) lo body.

(** [switch (v) { case c1: return r1; ... }] followed by the code after the
    switch: the first label equal to [v] decides, [otherwise] runs when none
    is. *)
Fixpoint switch {A} (v : Z) (cases : list (Z * A)) (otherwise : A) : A :=
  match cases with
  | [] => otherwise
  | (label, r) :: rest => if v =? label then r else switch v rest otherwise
  end.

(** Modelled from the spec: [str::format] (util_string.h), which writes its
    arguments one after the other to a string stream; an enumeration value
    is written as the decimal integer it holds, which is what lets the
    message identify the offending value. *)
Definition str_format (text : string) (value : Z) : string :=
  (text ++ NilZero.string_of_int (Z.to_int value))%string.

Definition Logger_err (message : string) : M unit :=
  update (fun w => set_logger (logger w ++ [(LogLevel_Error, message)]) w).

(** [a.at(i)] as an rvalue and [a.at(i) = x]. *)
Definition at_ {A} (a : Array8.t A) (i : Z) : M A :=
  match Array8.get a i with
  | Some x => ret x
  | None => raise std_out_of_range
  end.

Definition at_assign {A} (a : Array8.t A) (i : Z) (x : A) : M (Array8.t A) :=
  match Array8.set a i x with
  | Some a' => ret a'
  | None => raise std_out_of_range
  end.

(** [a[i]] on a C array. *)
Definition index {A} (a : Array8.t A) (i : Z) : M A :=
  match Array8.get a i with
  | Some x => ret x
  | None => raise array_index_out_of_bounds
  end.

(** ** The decoders *)

Definition DecodeBlendFactor (blendFactor : D3D11_BLEND) (isAlpha : bool)
  : M VkBlendFactor :=
  switch blendFactor
    [ (D3D11_BLEND_ZERO,             ret VK_BLEND_FACTOR_ZERO);
      (D3D11_BLEND_ONE,              ret VK_BLEND_FACTOR_ONE);
      (D3D11_BLEND_SRC_COLOR,        ret VK_BLEND_FACTOR_SRC_COLOR);
      (D3D11_BLEND_INV_SRC_COLOR,    ret VK_BLEND_FACTOR_ONE_MINUS_SRC_COLOR);
      (D3D11_BLEND_SRC_ALPHA,        ret VK_BLEND_FACTOR_SRC_ALPHA);
      (D3D11_BLEND_INV_SRC_ALPHA,    ret VK_BLEND_FACTOR_ONE_MINUS_SRC_ALPHA);
      (D3D11_BLEND_DEST_ALPHA,       ret VK_BLEND_FACTOR_DST_ALPHA);
      (D3D11_BLEND_INV_DEST_ALPHA,   ret VK_BLEND_FACTOR_ONE_MINUS_DST_ALPHA);
      (D3D11_BLEND_DEST_COLOR,       ret VK_BLEND_FACTOR_DST_COLOR);
      (D3D11_BLEND_INV_DEST_COLOR,   ret VK_BLEND_FACTOR_ONE_MINUS_DST_COLOR);
      (D3D11_BLEND_SRC_ALPHA_SAT,    ret VK_BLEND_FACTOR_SRC_ALPHA_SATURATE);
      (D3D11_BLEND_BLEND_FACTOR,
         ret (if isAlpha then VK_BLEND_FACTOR_CONSTANT_ALPHA
              else VK_BLEND_FACTOR_CONSTANT_COLOR));
      (D3D11_BLEND_INV_BLEND_FACTOR,
         ret (if isAlpha then VK_BLEND_FACTOR_ONE_MINUS_CONSTANT_ALPHA
              else VK_BLEND_FACTOR_ONE_MINUS_CONSTANT_COLOR));
      (D3D11_BLEND_SRC1_COLOR,       ret VK_BLEND_FACTOR_SRC1_COLOR);
      (D3D11_BLEND_INV_SRC1_COLOR,   ret VK_BLEND_FACTOR_ONE_MINUS_SRC1_COLOR);
      (D3D11_BLEND_SRC1_ALPHA,       ret VK_BLEND_FACTOR_SRC1_ALPHA);
      (D3D11_BLEND_INV_SRC1_ALPHA,   ret VK_BLEND_FACTOR_ONE_MINUS_SRC1_ALPHA) ]
    (Logger_err (str_format "D3D11: Invalid blend factor: " blendFactor) ;;
     ret VK_BLEND_FACTOR_ZERO).

Definition DecodeBlendOp (blendOp : D3D11_BLEND_OP) : M VkBlendOp :=
  switch blendOp
    [ (D3D11_BLEND_OP_ADD,           ret VK_BLEND_OP_ADD);
      (D3D11_BLEND_OP_SUBTRACT,      ret VK_BLEND_OP_SUBTRACT);
      (D3D11_BLEND_OP_REV_SUBTRACT,  ret VK_BLEND_OP_REVERSE_SUBTRACT);
      (D3D11_BLEND_OP_MIN,           ret VK_BLEND_OP_MIN);
      (D3D11_BLEND_OP_MAX,           ret VK_BLEND_OP_MAX) ]
    (Logger_err (str_format "D3D11: Invalid blend op: " blendOp) ;;
     ret VK_BLEND_OP_ADD).

Definition DecodeBlendMode (blendDesc : D3D11_RENDER_TARGET_BLEND_DESC)
  : M DxvkBlendMode :=
  let mode_enableBlending := BlendEnable blendDesc in
  mode_colorSrcFactor <- DecodeBlendFactor (SrcBlend blendDesc) false ;;
  mode_colorDstFactor <- DecodeBlendFactor (DestBlend blendDesc) false ;;
  mode_colorBlendOp   <- DecodeBlendOp (BlendOp blendDesc) ;;
  mode_alphaSrcFactor <- DecodeBlendFactor (SrcBlendAlpha blendDesc) true ;;
  mode_alphaDstFactor <- DecodeBlendFactor (DestBlendAlpha blendDesc) true ;;
  mode_alphaBlendOp   <- DecodeBlendOp (BlendOpAlpha blendDesc) ;;
  let mode_writeMask  := RenderTargetWriteMask blendDesc in
  ret {| enableBlending := mode_enableBlending;
         colorSrcFactor := mode_colorSrcFactor;
         colorDstFactor := mode_colorDstFactor;
         colorBlendOp := mode_colorBlendOp;
         alphaSrcFactor := mode_alphaSrcFactor;
         alphaDstFactor := mode_alphaDstFactor;
         alphaBlendOp := mode_alphaBlendOp;
         writeMask := mode_writeMask |}.

(** ** The class *)

(** The body of the loop of the constructor, for slot [i]:
    [m_blendModes.at(i) = DecodeBlendMode(desc.IndependentBlendEnable
    ? desc.RenderTarget[i] : desc.RenderTarget[0])]. *)
Definition ctor_loop_body (desc : D3D11_BLEND_DESC) (i : Z) : M unit :=
  blendDesc <- (if IndependentBlendEnable desc
                then index (RenderTarget desc) i
                else index (RenderTarget desc) 0) ;;
  mode <- DecodeBlendMode blendDesc ;;
  blendModes <- read (fun w => m_blendModes (this w)) ;;
  blendModes' <- at_assign blendModes i mode ;;
  update (fun w => set_this (set_m_blendModes blendModes' (this w)) w).

(** The constructor. It runs on the storage of the new object, [this], whose
    members hold whatever the storage held before: the two members of the
    initializer list are set first, then the body runs. *)
Definition D3D11BlendState_ctor
  (device : D3D11Device_ptr) (desc : D3D11_BLEND_DESC) : M unit :=
  update (fun w => set_this (set_m_device device (this w)) w) ;;
  update (fun w => set_this (set_m_desc desc (this w)) w) ;;
  for_loop 0 Array8.size (ctor_loop_body desc) ;;
  let assign_msState (f : DxvkMultisampleState -> DxvkMultisampleState) :=
    update (fun w => set_this (set_m_msState (f (m_msState (this w))) (this w)) w) in
  assign_msState (set_sampleMask 0) ;;
  assign_msState (set_enableAlphaToCoverage (AlphaToCoverageEnable desc)) ;;
  assign_msState (set_enableAlphaToOne VK_FALSE) ;;
  assign_msState (set_enableSampleShading VK_FALSE) ;;
  assign_msState (set_minSampleShading float_zero).

(** [GetDesc(pDesc)]: the value stored to [*pDesc] is the result. *)
Definition GetDesc : M D3D11_BLEND_DESC :=
  read (fun w => m_desc (this w)).

(** [ctx->setBlendMode(i, mode)] and [ctx->setMultisampleState(ms)]. *)
Definition ctx_setBlendMode (i : Z) (mode : DxvkBlendMode) : M unit :=
  update (fun w => set_ctx (ctx w ++ [setBlendMode i mode]) w).

Definition ctx_setMultisampleState (ms : DxvkMultisampleState) : M unit :=
  update (fun w => set_ctx (ctx w ++ [setMultisampleState ms]) w).

Definition BindToContext (sampleMask' : Z) : M unit :=
  for_loop 0 Array8.size (fun i =>
    blendModes <- read (fun w => m_blendModes (this w)) ;;
    mode <- at_ blendModes i ;;
    ctx_setBlendMode i mode) ;;
  msState <- read (fun w => m_msState (this w)) ;;
  let msState := set_sampleMask sampleMask' msState in
  ctx_setMultisampleState msState.


(** ** Computations that only log

    [yields m a msgs]: in every world, [m] returns [a] and its only effect
    is to append [msgs] to the log. The decoders are of this kind. *)

Definition log_all (msgs : list LogEntry) (w : World) : World :=
  set_logger (logger w ++ msgs) w.

Definition yields {A} (m : M A) (a : A) (msgs : list LogEntry) : Prop :=
  forall w, run m w = inr (a, log_all msgs w).

(** [resolves desc i mode]: [mode] is what [DecodeBlendMode] returns for
    the sub-record the constructor selects for slot [i], which is
    [RenderTarget[i]] when independent blending is enabled and
    [RenderTarget[0]] when it is not. *)
Definition resolves (desc : D3D11_BLEND_DESC) (i : Z) (mode : DxvkBlendMode)
  : Prop :=
  exists blendDesc msgs,
    Array8.get (RenderTarget desc) (if IndependentBlendEnable desc then i else 0)
      = Some blendDesc /\
    yields (DecodeBlendMode blendDesc) mode msgs.

(** ** Example data

    The descriptor of the specification's scenario (alpha blending on every
    target, independent blending off, alpha-to-coverage on), a descriptor
    with independent blending on whose eight targets differ, and a world
    whose object storage holds values unrelated to either. *)

Definition alpha_blend_target : D3D11_RENDER_TARGET_BLEND_DESC :=
  {| BlendEnable := true;
     SrcBlend := D3D11_BLEND_SRC_ALPHA;
     DestBlend := D3D11_BLEND_INV_SRC_ALPHA;
     BlendOp := D3D11_BLEND_OP_ADD;
     SrcBlendAlpha := D3D11_BLEND_ONE;
     DestBlendAlpha := D3D11_BLEND_ZERO;
     BlendOpAlpha := D3D11_BLEND_OP_ADD;
     RenderTargetWriteMask := 15 |}.

Definition opaque_target (mask : Z) : D3D11_RENDER_TARGET_BLEND_DESC :=
  {| BlendEnable := false;
     SrcBlend := D3D11_BLEND_ONE;
     DestBlend := D3D11_BLEND_ZERO;
     BlendOp := D3D11_BLEND_OP_ADD;
     SrcBlendAlpha := D3D11_BLEND_BLEND_FACTOR;
     DestBlendAlpha := D3D11_BLEND_ZERO;
     BlendOpAlpha := D3D11_BLEND_OP_MAX;
     RenderTargetWriteMask := mask |}.

(** A sub-record whose source factor, 99, is no enumerator. *)
Definition corrupt_target : D3D11_RENDER_TARGET_BLEND_DESC :=
  {| BlendEnable := true;
     SrcBlend := 99;
     DestBlend := D3D11_BLEND_INV_SRC_ALPHA;
     BlendOp := D3D11_BLEND_OP_ADD;
     SrcBlendAlpha := D3D11_BLEND_ONE;
     DestBlendAlpha := D3D11_BLEND_ZERO;
     BlendOpAlpha := D3D11_BLEND_OP_ADD;
     RenderTargetWriteMask := 15 |}.

Definition shared_desc : D3D11_BLEND_DESC :=
  {| AlphaToCoverageEnable := true;
     IndependentBlendEnable := false;
     RenderTarget :=
       Array8.make alpha_blend_target (opaque_target 1) (opaque_target 2)
         (opaque_target 3) (opaque_target 4) (opaque_target 5)
         (opaque_target 6) (opaque_target 7) |}.

Definition independent_desc (last : D3D11_RENDER_TARGET_BLEND_DESC)
  : D3D11_BLEND_DESC :=
  {| AlphaToCoverageEnable := false;
     IndependentBlendEnable := true;
     RenderTarget :=
       Array8.make alpha_blend_target (opaque_target 1) (opaque_target 2)
         (opaque_target 3) (opaque_target 4) (opaque_target 5)
         (opaque_target 6) last |}.

Definition stale_mode : DxvkBlendMode :=
  {| enableBlending := true;
     colorSrcFactor := VK_BLEND_FACTOR_SRC1_ALPHA;
     colorDstFactor := VK_BLEND_FACTOR_DST_COLOR;
     colorBlendOp := VK_BLEND_OP_MIN;
     alphaSrcFactor := VK_BLEND_FACTOR_ONE;
     alphaDstFactor := VK_BLEND_FACTOR_ONE;
     alphaBlendOp := VK_BLEND_OP_MAX;
     writeMask := 5 |}.

Definition stale_storage : D3D11BlendState :=
  {| m_device := 3735928559;
     m_desc := independent_desc corrupt_target;
     m_blendModes := Array8.fill stale_mode;
     m_msState :=
       {| sampleMask := 43690;
          enableAlphaToCoverage := false;
          enableAlphaToOne := true;
          enableSampleShading := true;
          minSampleShading := S754_infinity false |} |}.

Definition stale_world : World :=
  {| this := stale_storage; ctx := []; logger := [] |}.

(** ** Expected diagnostics

    What the decoders are expected to log: nothing for an enumerator, one
    error naming the value otherwise; for a sub-record, the diagnostics of
    its six enumerants in the order [DecodeBlendMode] decodes them; and the
    sub-record each of the eight slots is resolved from. The theorems below
    relate them to the code. *)

Definition factor_diagnostics (v : D3D11_BLEND) : list LogEntry :=
  if is_enumerator D3D11_BLEND_enumerators v then []
  else [(LogLevel_Error, str_format "D3D11: Invalid blend factor: " v)].

Definition op_diagnostics (v : D3D11_BLEND_OP) : list LogEntry :=
  if is_enumerator D3D11_BLEND_OP_enumerators v then []
  else [(LogLevel_Error, str_format "D3D11: Invalid blend op: " v)].

Definition mode_diagnostics (blendDesc : D3D11_RENDER_TARGET_BLEND_DESC)
  : list LogEntry :=
  factor_diagnostics (SrcBlend blendDesc) ++
  factor_diagnostics (DestBlend blendDesc) ++
  op_diagnostics (BlendOp blendDesc) ++
  factor_diagnostics (SrcBlendAlpha blendDesc) ++
  factor_diagnostics (DestBlendAlpha blendDesc) ++
  op_diagnostics (BlendOpAlpha blendDesc).

Definition effective_targets (desc : D3D11_BLEND_DESC)
  : list D3D11_RENDER_TARGET_BLEND_DESC :=
  if IndependentBlendEnable desc
  then Array8.to_list (RenderTarget desc)
  else repeat (Array8.e0 (RenderTarget desc)) 8.

(** All six enumerants of a sub-record are enumerators. *)
Definition well_formed_target (blendDesc : D3D11_RENDER_TARGET_BLEND_DESC)
  : bool :=
  is_enumerator D3D11_BLEND_enumerators (SrcBlend blendDesc) &&
  is_enumerator D3D11_BLEND_enumerators (DestBlend blendDesc) &&
  is_enumerator D3D11_BLEND_OP_enumerators (BlendOp blendDesc) &&
  is_enumerator D3D11_BLEND_enumerators (SrcBlendAlpha blendDesc) &&
  is_enumerator D3D11_BLEND_enumerators (DestBlendAlpha blendDesc) &&
  is_enumerator D3D11_BLEND_OP_enumerators (BlendOpAlpha blendDesc).

(** A descriptor with independent blending off whose first target is
    [corrupt_target] and whose other targets hold invalid operations. *)
Definition corrupt_shared_desc : D3D11_BLEND_DESC :=
  let ignored :=
    {| BlendEnable := true; SrcBlend := 12; DestBlend := D3D11_BLEND_ONE;
       BlendOp := 0; SrcBlendAlpha := D3D11_BLEND_ONE;
       DestBlendAlpha := D3D11_BLEND_ZERO; BlendOpAlpha := 77;
       RenderTargetWriteMask := 1 |} in
  {| AlphaToCoverageEnable := false;
     IndependentBlendEnable := false;
     RenderTarget :=
       Array8.make corrupt_target ignored ignored ignored ignored ignored
         ignored ignored |}.

(** A caller that binds the object once for each mask of a list, in order. *)
Fixpoint BindToContext_each (masks : list Z) : M unit :=
  match masks with
  | [] => ret tt
  | mask :: rest => BindToContext mask ;; BindToContext_each rest
  end.

(** * The HUD item set

    A shallow embedding of the constructor of [HudItemSet]
    ([src/dxvk/hud/dxvk_hud_item.cpp]), which reads the configuration
    string of the HUD from the environment and records the items it
    enables. *)

(** ** Library operations *)

(** [s.find(c, pos)]: the first position at or after [pos] that holds [c].
    [None] stands for [std::string::npos]; positions and sizes are natural
    numbers, none of the arithmetic of the constructor can reach the range
    of [npos]. *)
Fixpoint string_find (s : string) (c : ascii) (pos : nat) : option nat :=
  match s with
  | EmptyString => None
  | String a s' =>
      match pos with
      | O => if Ascii.eqb a c then Some O
             else option_map S (string_find s' c O)
      | S pos' => option_map S (string_find s' c pos')
      end
  end.

(** [s.substr(pos, n)]: at most [n] characters from [pos] on; throws
    [std::out_of_range] when [pos] is beyond the size. *)
Definition substr (s : string) (pos n : nat) : Abort + string :=
  if (pos <=? String.length s)%nat then inr (substring pos n s)
  else inl std_out_of_range.

(** ** The class *)

(** The data members the file uses. [m_enabled] is a set of strings: what
    matters of it is which names it holds. [m_items] holds references to
    the items. *)
Record HudItemSet : Type :=
  { m_enableFull : bool;
    m_enabled : set string;
    m_items : list Z }.

Definition set_m_enableFull (v : bool) (o : HudItemSet) : HudItemSet :=
  {| m_enableFull := v; m_enabled := m_enabled o; m_items := m_items o |}.

(** [m_enabled.insert(item)] *)
Definition m_enabled_insert (item : string) (o : HudItemSet) : HudItemSet :=
  {| m_enableFull := m_enableFull o;
     m_enabled := set_add string_dec item (m_enabled o);
     m_items := m_items o |}.

(** How a run of the constructor ends: it returns, it throws, or the model
    runs out of fuel for the loop. *)
Inductive Outcome (A : Type) : Type :=
| Finished (a : A)
| Thrown (e : Abort)
| OutOfFuel.

Arguments Finished {A} _.
Arguments Thrown {A} _.
Arguments OutOfFuel {A}.

(** The [while] loop of the constructor, entered with [pos]:
    [fuel] bounds the number of iterations. *)
Fixpoint HudItemSet_ctor_loop (fuel : nat) (configStr : string) (pos : nat)
         (self : HudItemSet) {struct fuel} : Outcome HudItemSet :=
  if (pos <? String.length configStr)%nat then
    match fuel with
    | O => OutOfFuel
    | S fuel' =>
        let end_ :=
          match string_find configStr "," pos with
          | Some found => found
          | None => String.length configStr
          end in
        match substr configStr pos (end_ - pos) with
        | inl e => Thrown e
        | inr item =>
            HudItemSet_ctor_loop fuel' configStr (end_ + 1)
              (m_enabled_insert item self)
        end
    end
  else Finished self.

(** The constructor, on the object [self] as its member initializers leave
    it, with [getEnvVar] for [env::getEnvVar]. Every iteration of the loop
    moves [pos] forward, so the size of the string is fuel enough. *)
Definition HudItemSet_ctor (getEnvVar : string -> string) (self : HudItemSet)
  : Outcome HudItemSet :=
  let configStr := getEnvVar "DXVK_HUD"%string in
  if (configStr =? "full")%string then
    Finished (set_m_enableFull true self)
  else if (configStr =? "1")%string then
    Finished (m_enabled_insert "fps" (m_enabled_insert "devinfo" self))
  else
    HudItemSet_ctor_loop (String.length configStr) configStr 0 self.

(** ** Fields of a configuration string *)

Definition comma_free (s : string) : Prop :=
  ~ In ","%char (list_ascii_of_string s).

(** [item] is a field of [s]: it lies in [s] between two commas, or
    between an end of [s] and a comma, or is the whole of [s], and holds no
    comma itself. An empty field at the very end of [s] does not count. *)
Definition is_field (item s : string) : Prop :=
  exists pre post : string,
    s = (pre ++ item ++ post)%string /\
    comma_free item /\
    (pre = ""%string \/ exists p, pre = (p ++ ",")%string) /\
    ((post = ""%string /\ item <> ""%string) \/
     exists q, post = ("," ++ q)%string).

(** An object with nothing enabled. *)
Definition fresh_HudItemSet : HudItemSet :=
  {| m_enableFull := false; m_enabled := empty_set string; m_items := [] |}.

(** * Verification *)

(** ** Running computations *)

Section Running.

Lemma run_bind {A B} (m : M A) (f : A -> M B) (w : World) :
  run (bind m f) w =
  match run m w with
  | inl e => inl e
  | inr (a, w') => run (f a) w'
  end.
Proof.
  unfold run. cbn. destruct (runStateT m w) as [e | [a w']]; reflexivity.
Qed.

Lemma run_ret {A} (a : A) (w : World) : run (ret a) w = inr (a, w).
Proof. reflexivity. Qed.

Lemma run_update (f : World -> World) (w : World) :
  run (update f) w = inr (tt, f w).
Proof. reflexivity. Qed.

Lemma run_read {A} (f : World -> A) (w : World) :
  run (read f) w = inr (f w, w).
Proof. reflexivity. Qed.

Lemma for_count_succ (n : nat) (i : Z) (body : Z -> M unit) (w : World) :
  run (for_count (S n) i body) w =
  match run (body i) w with
  | inl e => inl e
  | inr (_, w') => run (for_count n (i + 1) body) w'
  end.
Proof. cbn [for_count]. apply run_bind. Qed.

End Running.

Section Yields.

Lemma log_all_nil (w : World) : log_all [] w = w.
Proof. destruct w. unfold log_all, set_logger. cbn. now rewrite app_nil_r. Qed.

Lemma log_all_app (l1 l2 : list LogEntry) (w : World) :
  log_all l2 (log_all l1 w) = log_all (l1 ++ l2) w.
Proof. unfold log_all, set_logger. cbn. now rewrite app_assoc. Qed.

Lemma yields_ret {A} (a : A) : yields (ret a) a [].
Proof. intros w. now rewrite log_all_nil. Qed.

Lemma yields_bind {A B} (m : M A) (f : A -> M B) a b l1 l2 :
  yields m a l1 -> yields (f a) b l2 -> yields (bind m f) b (l1 ++ l2).
Proof.
  intros Hm Hf w. rewrite run_bind, Hm, Hf. now rewrite log_all_app.
Qed.

Lemma yields_Logger_err (message : string) :
  yields (Logger_err message) tt [(LogLevel_Error, message)].
Proof. intros w. reflexivity. Qed.

(** What a computation yields is determined by the computation. *)
Lemma yields_unique {A} (m : M A) a a' l l' (w : World) :
  yields m a l -> yields m a' l' -> a = a' /\ l = l'.
Proof.
  intros H H'. specialize (H w). rewrite (H' w) in H.
  injection H as Ha Hl. split; [congruence |].
  now apply app_inv_head in Hl.
Qed.

End Yields.

(** ** [switch] *)

Section Switch.

Context {A : Type}.

Lemma switch_otherwise (v : Z) (cases : list (Z * A)) (otherwise : A) :
  is_enumerator (map fst cases) v = false ->
  switch v cases otherwise = otherwise.
Proof.
  unfold is_enumerator.
  induction cases as [| [label r] rest IH]; cbn; [reflexivity |].
  intros H. apply orb_false_elim in H as [Hv Hrest].
  rewrite Hv. now apply IH.
Qed.

Lemma switch_case (v : Z) (cases : list (Z * A)) (otherwise : A) :
  is_enumerator (map fst cases) v = true ->
  exists r, In (v, r) cases /\ switch v cases otherwise = r.
Proof.
  unfold is_enumerator.
  induction cases as [| [label r] rest IH]; cbn; [discriminate |].
  destruct (Z.eqb_spec v label) as [-> | Hne]; cbn.
  - intros _. exists r. auto.
  - intros H. destruct (IH H) as (r' & Hin & Hr'). exists r'. auto.
Qed.

End Switch.

(** ** The diagnostic names the value *)

Section Diagnostics.

Lemma append_inv_head (s t t' : string) :
  (s ++ t = s ++ t')%string -> t = t'.
Proof.
  induction s as [| c s IH]; cbn; [trivial |].
  intros H. injection H as H. now apply IH.
Qed.

Lemma to_int_proper (v : Z) :
  Z.to_int v <> Decimal.Pos Decimal.Nil /\
  Z.to_int v <> Decimal.Neg Decimal.Nil.
Proof.
  destruct v as [| p | p]; cbn; split; try discriminate;
    intros H; injection H as H; now apply DecimalPos.Unsigned.to_uint_nonnil in H.
Qed.

(** Two messages with the same text before the value name the same value. *)
Lemma str_format_inj (text : string) (v v' : Z) :
  str_format text v = str_format text v' -> v = v'.
Proof.
  unfold str_format. intros H. apply append_inv_head in H.
  apply DecimalZ.to_int_inj.
  destruct (to_int_proper v) as [Hp Hn], (to_int_proper v') as [Hp' Hn'].
  pose proof (NilZero.isi _ Hp Hn) as E.
  pose proof (NilZero.isi _ Hp' Hn') as E'.
  rewrite H in E. congruence.
Qed.

End Diagnostics.

(** ** What the decoders yield *)

Section Decoders.

Lemma DecodeBlendFactor_invalid (v : D3D11_BLEND) (isAlpha : bool) :
  is_enumerator D3D11_BLEND_enumerators v = false ->
  yields (DecodeBlendFactor v isAlpha) VK_BLEND_FACTOR_ZERO
    [(LogLevel_Error, str_format "D3D11: Invalid blend factor: " v)].
Proof.
  intros H. unfold DecodeBlendFactor.
  rewrite switch_otherwise by exact H.
  apply (yields_bind _ _ tt _ [_] []);
    [apply yields_Logger_err | apply yields_ret].
Qed.

Lemma DecodeBlendFactor_valid (v : D3D11_BLEND) (isAlpha : bool) :
  is_enumerator D3D11_BLEND_enumerators v = true ->
  exists native, yields (DecodeBlendFactor v isAlpha) native [].
Proof.
  intros H. unfold DecodeBlendFactor.
  match goal with
  | |- context [switch v ?cases ?d] =>
      destruct (switch_case v cases d H) as (r & Hin & ->)
  end.
  cbn [In] in Hin.
  repeat (destruct Hin as [Hin | Hin];
          [injection Hin as _ <-; eexists; apply yields_ret |]).
  contradiction.
Qed.

Lemma DecodeBlendOp_invalid (v : D3D11_BLEND_OP) :
  is_enumerator D3D11_BLEND_OP_enumerators v = false ->
  yields (DecodeBlendOp v) VK_BLEND_OP_ADD
    [(LogLevel_Error, str_format "D3D11: Invalid blend op: " v)].
Proof.
  intros H. unfold DecodeBlendOp.
  rewrite switch_otherwise by exact H.
  apply (yields_bind _ _ tt _ [_] []);
    [apply yields_Logger_err | apply yields_ret].
Qed.

Lemma DecodeBlendOp_valid (v : D3D11_BLEND_OP) :
  is_enumerator D3D11_BLEND_OP_enumerators v = true ->
  exists native, yields (DecodeBlendOp v) native [].
Proof.
  intros H. unfold DecodeBlendOp.
  match goal with
  | |- context [switch v ?cases ?d] =>
      destruct (switch_case v cases d H) as (r & Hin & ->)
  end.
  cbn [In] in Hin.
  repeat (destruct Hin as [Hin | Hin];
          [injection Hin as _ <-; eexists; apply yields_ret |]).
  contradiction.
Qed.

Lemma DecodeBlendFactor_yields (v : D3D11_BLEND) (isAlpha : bool) :
  exists native msgs, yields (DecodeBlendFactor v isAlpha) native msgs.
Proof.
  destruct (is_enumerator D3D11_BLEND_enumerators v) eqn:E.
  - destruct (DecodeBlendFactor_valid v isAlpha E) as [native H]. eauto.
  - eauto using DecodeBlendFactor_invalid.
Qed.

Lemma DecodeBlendOp_yields (v : D3D11_BLEND_OP) :
  exists native msgs, yields (DecodeBlendOp v) native msgs.
Proof.
  destruct (is_enumerator D3D11_BLEND_OP_enumerators v) eqn:E.
  - destruct (DecodeBlendOp_valid v E) as [native H]. eauto.
  - eauto using DecodeBlendOp_invalid.
Qed.

(** [DecodeBlendMode] assembles what the six decoder calls yield, in the
    order of the calls, around the two fields it copies. *)
Lemma DecodeBlendMode_assembles (blendDesc : D3D11_RENDER_TARGET_BLEND_DESC)
      cs cd co als ald alo l1 l2 l3 l4 l5 l6 :
  yields (DecodeBlendFactor (SrcBlend blendDesc) false) cs l1 ->
  yields (DecodeBlendFactor (DestBlend blendDesc) false) cd l2 ->
  yields (DecodeBlendOp (BlendOp blendDesc)) co l3 ->
  yields (DecodeBlendFactor (SrcBlendAlpha blendDesc) true) als l4 ->
  yields (DecodeBlendFactor (DestBlendAlpha blendDesc) true) ald l5 ->
  yields (DecodeBlendOp (BlendOpAlpha blendDesc)) alo l6 ->
  yields (DecodeBlendMode blendDesc)
    {| enableBlending := BlendEnable blendDesc;
       colorSrcFactor := cs; colorDstFactor := cd; colorBlendOp := co;
       alphaSrcFactor := als; alphaDstFactor := ald; alphaBlendOp := alo;
       writeMask := RenderTargetWriteMask blendDesc |}
    (l1 ++ l2 ++ l3 ++ l4 ++ l5 ++ l6 ++ []).
Proof.
  intros H1 H2 H3 H4 H5 H6. unfold DecodeBlendMode.
  eapply yields_bind; [exact H1 |].
  eapply yields_bind; [exact H2 |].
  eapply yields_bind; [exact H3 |].
  eapply yields_bind; [exact H4 |].
  eapply yields_bind; [exact H5 |].
  eapply yields_bind; [exact H6 |].
  apply yields_ret.
Qed.

Lemma DecodeBlendMode_yields (blendDesc : D3D11_RENDER_TARGET_BLEND_DESC) :
  exists mode msgs, yields (DecodeBlendMode blendDesc) mode msgs.
Proof.
  destruct (DecodeBlendFactor_yields (SrcBlend blendDesc) false) as (? & ? & H1).
  destruct (DecodeBlendFactor_yields (DestBlend blendDesc) false) as (? & ? & H2).
  destruct (DecodeBlendOp_yields (BlendOp blendDesc)) as (? & ? & H3).
  destruct (DecodeBlendFactor_yields (SrcBlendAlpha blendDesc) true) as (? & ? & H4).
  destruct (DecodeBlendFactor_yields (DestBlendAlpha blendDesc) true) as (? & ? & H5).
  destruct (DecodeBlendOp_yields (BlendOpAlpha blendDesc)) as (? & ? & H6).
  eauto using DecodeBlendMode_assembles.
Qed.

End Decoders.

(** Claim C3. The two mapping functions are total and never abort or throw.
    Every enumerator of [D3D11_BLEND] and of [D3D11_BLEND_OP] yields the
    native value the table gives it, with no diagnostic; a value that is no
    enumerator yields [VK_BLEND_FACTOR_ZERO] from [DecodeBlendFactor] and
    [VK_BLEND_OP_ADD] from [DecodeBlendOp], and exactly one diagnostic is
    logged, whose text determines the offending value. In every case the
    call returns, and it touches nothing but the log. *)
Theorem decoders_total_with_fallback (isAlpha : bool) :
  ( yields (DecodeBlendFactor D3D11_BLEND_ZERO isAlpha) VK_BLEND_FACTOR_ZERO [] /\
    yields (DecodeBlendFactor D3D11_BLEND_ONE isAlpha) VK_BLEND_FACTOR_ONE [] /\
    yields (DecodeBlendFactor D3D11_BLEND_SRC_COLOR isAlpha) VK_BLEND_FACTOR_SRC_COLOR [] /\
    yields (DecodeBlendFactor D3D11_BLEND_INV_SRC_COLOR isAlpha) VK_BLEND_FACTOR_ONE_MINUS_SRC_COLOR [] /\
    yields (DecodeBlendFactor D3D11_BLEND_SRC_ALPHA isAlpha) VK_BLEND_FACTOR_SRC_ALPHA [] /\
    yields (DecodeBlendFactor D3D11_BLEND_INV_SRC_ALPHA isAlpha) VK_BLEND_FACTOR_ONE_MINUS_SRC_ALPHA [] /\
    yields (DecodeBlendFactor D3D11_BLEND_DEST_ALPHA isAlpha) VK_BLEND_FACTOR_DST_ALPHA [] /\
    yields (DecodeBlendFactor D3D11_BLEND_INV_DEST_ALPHA isAlpha) VK_BLEND_FACTOR_ONE_MINUS_DST_ALPHA [] /\
    yields (DecodeBlendFactor D3D11_BLEND_DEST_COLOR isAlpha) VK_BLEND_FACTOR_DST_COLOR [] /\
    yields (DecodeBlendFactor D3D11_BLEND_INV_DEST_COLOR isAlpha) VK_BLEND_FACTOR_ONE_MINUS_DST_COLOR [] /\
    yields (DecodeBlendFactor D3D11_BLEND_SRC_ALPHA_SAT isAlpha) VK_BLEND_FACTOR_SRC_ALPHA_SATURATE [] /\
    yields (DecodeBlendFactor D3D11_BLEND_BLEND_FACTOR isAlpha)
      (if isAlpha then VK_BLEND_FACTOR_CONSTANT_ALPHA
       else VK_BLEND_FACTOR_CONSTANT_COLOR) [] /\
    yields (DecodeBlendFactor D3D11_BLEND_INV_BLEND_FACTOR isAlpha)
      (if isAlpha then VK_BLEND_FACTOR_ONE_MINUS_CONSTANT_ALPHA
       else VK_BLEND_FACTOR_ONE_MINUS_CONSTANT_COLOR) [] /\
    yields (DecodeBlendFactor D3D11_BLEND_SRC1_COLOR isAlpha) VK_BLEND_FACTOR_SRC1_COLOR [] /\
    yields (DecodeBlendFactor D3D11_BLEND_INV_SRC1_COLOR isAlpha) VK_BLEND_FACTOR_ONE_MINUS_SRC1_COLOR [] /\
    yields (DecodeBlendFactor D3D11_BLEND_SRC1_ALPHA isAlpha) VK_BLEND_FACTOR_SRC1_ALPHA [] /\
    yields (DecodeBlendFactor D3D11_BLEND_INV_SRC1_ALPHA isAlpha) VK_BLEND_FACTOR_ONE_MINUS_SRC1_ALPHA [] )
  /\
  ( yields (DecodeBlendOp D3D11_BLEND_OP_ADD) VK_BLEND_OP_ADD [] /\
    yields (DecodeBlendOp D3D11_BLEND_OP_SUBTRACT) VK_BLEND_OP_SUBTRACT [] /\
    yields (DecodeBlendOp D3D11_BLEND_OP_REV_SUBTRACT) VK_BLEND_OP_REVERSE_SUBTRACT [] /\
    yields (DecodeBlendOp D3D11_BLEND_OP_MIN) VK_BLEND_OP_MIN [] /\
    yields (DecodeBlendOp D3D11_BLEND_OP_MAX) VK_BLEND_OP_MAX [] )
  /\
  (forall v : D3D11_BLEND,
      is_enumerator D3D11_BLEND_enumerators v = false ->
      yields (DecodeBlendFactor v isAlpha) VK_BLEND_FACTOR_ZERO
        [(LogLevel_Error, str_format "D3D11: Invalid blend factor: " v)])
  /\
  (forall v : D3D11_BLEND_OP,
      is_enumerator D3D11_BLEND_OP_enumerators v = false ->
      yields (DecodeBlendOp v) VK_BLEND_OP_ADD
        [(LogLevel_Error, str_format "D3D11: Invalid blend op: " v)])
  /\
  (forall (text : string) (v v' : Z),
      str_format text v = str_format text v' -> v = v')
  /\
  (forall (v : D3D11_BLEND) (w : World),
      exists native w', run (DecodeBlendFactor v isAlpha) w = inr (native, w'))
  /\
  (forall (v : D3D11_BLEND_OP) (w : World),
      exists native w', run (DecodeBlendOp v) w = inr (native, w')).
Proof.
  split; [| split; [| split; [| split; [| split; [| split]]]]].
  - repeat split; apply yields_ret.
  - repeat split; apply yields_ret.
  - intros v. apply DecodeBlendFactor_invalid.
  - apply DecodeBlendOp_invalid.
  - apply str_format_inj.
  - intros v w. destruct (DecodeBlendFactor_yields v isAlpha) as (n & l & H).
    exists n, (log_all l w). apply H.
  - intros v w. destruct (DecodeBlendOp_yields v) as (n & l & H).
    exists n, (log_all l w). apply H.
Qed.

(** The value 12 is no enumerator of [D3D11_BLEND], and 0 none of
    [D3D11_BLEND_OP]. *)
Lemma decoders_total_with_fallback_witness :
  is_enumerator D3D11_BLEND_enumerators 12 = false /\
  yields (DecodeBlendFactor 12 true) VK_BLEND_FACTOR_ZERO
    [(LogLevel_Error, "D3D11: Invalid blend factor: 12"%string)] /\
  is_enumerator D3D11_BLEND_OP_enumerators 0 = false /\
  yields (DecodeBlendOp 0) VK_BLEND_OP_ADD
    [(LogLevel_Error, "D3D11: Invalid blend op: 0"%string)].
Proof.
  pose proof (decoders_total_with_fallback true) as (_ & _ & Hf & Ho & _).
  split; [reflexivity |]. split; [apply (Hf 12); reflexivity |].
  split; [reflexivity |]. apply (Ho 0); reflexivity.
Defined.

(** Claim C8. [DecodeBlendFactor] maps [D3D11_BLEND_BLEND_FACTOR] and
    [D3D11_BLEND_INV_BLEND_FACTOR] to the constant-color enumerators when
    [isAlpha] is false and to the constant-alpha enumerators when it is
    true; for each of the two inputs the two results are different native
    enumerators, with different values. *)
Theorem constant_factor_depends_on_channel :
  yields (DecodeBlendFactor D3D11_BLEND_BLEND_FACTOR false)
    VK_BLEND_FACTOR_CONSTANT_COLOR [] /\
  yields (DecodeBlendFactor D3D11_BLEND_BLEND_FACTOR true)
    VK_BLEND_FACTOR_CONSTANT_ALPHA [] /\
  yields (DecodeBlendFactor D3D11_BLEND_INV_BLEND_FACTOR false)
    VK_BLEND_FACTOR_ONE_MINUS_CONSTANT_COLOR [] /\
  yields (DecodeBlendFactor D3D11_BLEND_INV_BLEND_FACTOR true)
    VK_BLEND_FACTOR_ONE_MINUS_CONSTANT_ALPHA [] /\
  VK_BLEND_FACTOR_CONSTANT_COLOR <> VK_BLEND_FACTOR_CONSTANT_ALPHA /\
  VK_BLEND_FACTOR_ONE_MINUS_CONSTANT_COLOR <>
    VK_BLEND_FACTOR_ONE_MINUS_CONSTANT_ALPHA /\
  VkBlendFactor_value VK_BLEND_FACTOR_CONSTANT_COLOR <>
    VkBlendFactor_value VK_BLEND_FACTOR_CONSTANT_ALPHA /\
  VkBlendFactor_value VK_BLEND_FACTOR_ONE_MINUS_CONSTANT_COLOR <>
    VkBlendFactor_value VK_BLEND_FACTOR_ONE_MINUS_CONSTANT_ALPHA /\
  (forall (v : D3D11_BLEND) (w w' : World) (color alpha : VkBlendFactor) u u',
      v = D3D11_BLEND_BLEND_FACTOR \/ v = D3D11_BLEND_INV_BLEND_FACTOR ->
      run (DecodeBlendFactor v false) w = inr (color, u) ->
      run (DecodeBlendFactor v true) w' = inr (alpha, u') ->
      color <> alpha).
Proof.
  repeat split; try apply yields_ret; try discriminate.
  intros v w w' color alpha u u' [-> | ->] Hc Ha;
    cbv in Hc, Ha; injection Hc as <- _; injection Ha as <- _; discriminate.
Qed.

(** ** Fixed-size arrays *)

Section Array8Facts.

Context {A : Type}.

Lemma Array8_index_cases (i : Z) :
  0 <= i < Array8.size ->
  i = 0 \/ i = 1 \/ i = 2 \/ i = 3 \/ i = 4 \/ i = 5 \/ i = 6 \/ i = 7.
Proof. unfold Array8.size. lia. Qed.

Lemma Array8_get_in_bounds (a : Array8.t A) (i : Z) :
  0 <= i < Array8.size -> exists x, Array8.get a i = Some x.
Proof.
  intros H. apply Array8_index_cases in H.
  repeat (destruct H as [-> | H]; [cbn; eauto |]). subst. cbn. eauto.
Qed.

Lemma Array8_get_out_of_bounds (a : Array8.t A) (i : Z) :
  ~ 0 <= i < Array8.size -> Array8.get a i = None.
Proof.
  unfold Array8.size. intros H.
  destruct i as [| p | p]; [lia | | reflexivity].
  do 4 (destruct p as [p | p |]; try reflexivity; try lia).
Qed.

Lemma Array8_set_in_bounds (a : Array8.t A) (i : Z) (x : A) :
  0 <= i < Array8.size ->
  exists a', Array8.set a i x = Some a' /\
             Array8.get a' i = Some x /\
             forall j, j <> i -> Array8.get a' j = Array8.get a j.
Proof.
  intros H. apply Array8_index_cases in H. destruct a.
  repeat (destruct H as [-> | H];
    [ eexists; split; [reflexivity |]; split; [reflexivity |];
      intros j Hj; destruct j as [| p | p]; try reflexivity; try lia;
      do 4 (destruct p as [p | p |]; try reflexivity; try lia) |]).
  subst. eexists. split; [reflexivity |]. split; [reflexivity |].
  intros j Hj. destruct j as [| p | p]; try reflexivity; try lia.
  do 4 (destruct p as [p | p |]; try reflexivity; try lia).
Qed.

End Array8Facts.

(** ** The constructor *)

Section Constructor.

Variable desc : D3D11_BLEND_DESC.

Lemma ctor_body_run (i : Z) (w : World) :
  0 <= i < Array8.size ->
  exists mode msgs blendModes',
    resolves desc i mode /\
    Array8.get blendModes' i = Some mode /\
    (forall j, j <> i ->
       Array8.get blendModes' j = Array8.get (m_blendModes (this w)) j) /\
    run (ctor_loop_body desc i) w =
    inr (tt, set_this (set_m_blendModes blendModes' (this w))
               (log_all msgs w)).
Proof.
  intros Hi.
  assert (Hsel : 0 <= (if IndependentBlendEnable desc then i else 0)
                 < Array8.size)
    by (destruct (IndependentBlendEnable desc); unfold Array8.size in *; lia).
  destruct (Array8_get_in_bounds (RenderTarget desc) _ Hsel) as [bd Hbd].
  destruct (DecodeBlendMode_yields bd) as (mode & msgs & Hmode).
  destruct (Array8_set_in_bounds (m_blendModes (this w)) i mode Hi)
    as (a' & Hset & Hsame & Hother).
  exists mode, msgs, a'.
  split; [exists bd, msgs; auto |]. split; [exact Hsame |].
  split; [exact Hother |].
  unfold ctor_loop_body. rewrite run_bind.
  assert (Hidx : run (if IndependentBlendEnable desc
                      then index (RenderTarget desc) i
                      else index (RenderTarget desc) 0) w = inr (bd, w)).
  { destruct (IndependentBlendEnable desc); unfold index; now rewrite Hbd. }
  rewrite Hidx, run_bind, Hmode, run_bind, run_read, run_bind.
  unfold at_assign.
  change (m_blendModes (this (log_all msgs w))) with (m_blendModes (this w)).
  rewrite Hset, run_ret, run_update. reflexivity.
Qed.

(** The loop, from slot [i] on for [n] iterations: the slots it visits
    hold the resolved modes, the slots before them and the rest of the
    world are as they were, and the log has grown. *)
Lemma ctor_loop_run (n : nat) :
  forall (i : Z) (w : World),
    0 <= i -> i + Z.of_nat n <= Array8.size ->
    exists w',
      run (for_count n i (ctor_loop_body desc)) w = inr (tt, w') /\
      m_device (this w') = m_device (this w) /\
      m_desc (this w') = m_desc (this w) /\
      m_msState (this w') = m_msState (this w) /\
      ctx w' = ctx w /\
      (exists msgs, logger w' = logger w ++ msgs) /\
      (forall j, i <= j < i + Z.of_nat n ->
         exists mode, Array8.get (m_blendModes (this w')) j = Some mode /\
                      resolves desc j mode) /\
      (forall j, j < i ->
         Array8.get (m_blendModes (this w')) j =
         Array8.get (m_blendModes (this w)) j).
Proof.
  induction n as [| n IH]; intros i w Hlo Hhi.
  - exists w. cbn [for_count]. rewrite run_ret.
    repeat split; trivial.
    + exists []. now rewrite app_nil_r.
    + intros j Hj. lia.
  - destruct (ctor_body_run i w) as (mode & msgs & a' & Hres & Hget & Hoth & Hrun);
      [lia |].
    rewrite for_count_succ, Hrun.
    destruct (IH (i + 1)
                (set_this (set_m_blendModes a' (this w)) (log_all msgs w)))
      as (w' & Hrun' & Hdev & Hdesc & Hms & Hctx & (msgs' & Hlog) & Hnew & Hold);
      [lia | lia |].
    exists w'. rewrite Hrun'.
    split; [reflexivity |]. split; [exact Hdev |]. split; [exact Hdesc |].
    split; [exact Hms |]. split; [exact Hctx |].
    split; [exists (msgs ++ msgs'); rewrite Hlog; cbn; now rewrite app_assoc |].
    split.
    + intros j Hj. destruct (Z.eq_dec j i) as [-> | Hne].
      * exists mode. split; [| exact Hres].
        rewrite Hold by lia. exact Hget.
      * apply Hnew. lia.
    + intros j Hj. rewrite Hold by lia. cbn. apply Hoth. lia.
Qed.

(** The whole constructor, on any storage and in any world. *)
Lemma ctor_run (device : D3D11Device_ptr) (w : World) :
  exists w',
    run (D3D11BlendState_ctor device desc) w = inr (tt, w') /\
    m_device (this w') = device /\
    m_desc (this w') = desc /\
    m_msState (this w') =
      {| sampleMask := 0;
         enableAlphaToCoverage := AlphaToCoverageEnable desc;
         enableAlphaToOne := false;
         enableSampleShading := false;
         minSampleShading := float_zero |} /\
    ctx w' = ctx w /\
    (exists msgs, logger w' = logger w ++ msgs) /\
    (forall j, 0 <= j < Array8.size ->
       exists mode, Array8.get (m_blendModes (this w')) j = Some mode /\
                    resolves desc j mode).
Proof.
  unfold D3D11BlendState_ctor, for_loop.
  change (Z.to_nat (Array8.size - 0)) with 8%nat.
  rewrite run_bind, run_update, run_bind, run_update, run_bind.
  destruct (ctor_loop_run 8 0
              (set_this (set_m_desc desc
                 (this (set_this (set_m_device device (this w)) w)))
                 (set_this (set_m_device device (this w)) w)))
    as (w' & Hrun & Hdev & Hdesc & Hms & Hctx & Hlog & Hnew & _);
    [lia | unfold Array8.size; lia |].
  rewrite Hrun.
  eexists. split; [reflexivity |]. cbn.
  split; [exact Hdev |]. split; [exact Hdesc |]. split; [reflexivity |].
  split; [exact Hctx |]. split; [exact Hlog |].
  intros j Hj. apply Hnew. unfold Array8.size in *. lia.
Qed.

End Constructor.

(** ** Construction *)

Section Construction.

Lemma resolves_shared (desc : D3D11_BLEND_DESC) (i : Z) (mode : DxvkBlendMode) :
  IndependentBlendEnable desc = false ->
  resolves desc i mode ->
  exists msgs,
    yields (DecodeBlendMode (Array8.e0 (RenderTarget desc))) mode msgs.
Proof.
  intros Hoff (bd & msgs & Hget & Hy). rewrite Hoff in Hget.
  cbn in Hget. injection Hget as <-. eauto.
Qed.

Lemma resolves_unique (desc desc' : D3D11_BLEND_DESC) (i i' : Z) mode mode' :
  Array8.get (RenderTarget desc) (if IndependentBlendEnable desc then i else 0) =
  Array8.get (RenderTarget desc')
             (if IndependentBlendEnable desc' then i' else 0) ->
  resolves desc i mode -> resolves desc' i' mode' -> mode = mode'.
Proof.
  intros Hsame (bd & msgs & Hget & Hy) (bd' & msgs' & Hget' & Hy').
  rewrite Hsame, Hget' in Hget. injection Hget as ->.
  exact (proj1 (yields_unique _ _ _ _ _ stale_world Hy Hy')).
Qed.

End Construction.

(** Claim C1. When the descriptor has [IndependentBlendEnable] false, the
    constructor returns and leaves in [m_blendModes] eight modes that are
    all the same: each is what [DecodeBlendMode] returns for
    [RenderTarget[0]]. *)
Theorem shared_blend_modes_identical
        (device : D3D11Device_ptr) (desc : D3D11_BLEND_DESC) (w : World) :
  IndependentBlendEnable desc = false ->
  exists w' mode msgs,
    run (D3D11BlendState_ctor device desc) w = inr (tt, w') /\
    yields (DecodeBlendMode (Array8.e0 (RenderTarget desc))) mode msgs /\
    m_blendModes (this w') = Array8.fill mode /\
    (forall i, 0 <= i < 8 ->
       Array8.get (m_blendModes (this w')) i = Some mode) /\
    (forall i j, 0 <= i < 8 -> 0 <= j < 8 ->
       Array8.get (m_blendModes (this w')) i =
       Array8.get (m_blendModes (this w')) j).
Proof.
  intros Hoff.
  destruct (ctor_run desc device w) as (w' & Hrun & _ & _ & _ & _ & _ & Hslots).
  destruct (Hslots 0) as (mode & Hget0 & Hres0); [unfold Array8.size; lia |].
  destruct (resolves_shared desc 0 mode Hoff Hres0) as [msgs Hy].
  assert (Hall : forall i, 0 <= i < 8 ->
            Array8.get (m_blendModes (this w')) i = Some mode).
  { intros i Hi. destruct (Hslots i) as (mode_i & Hget & Hres); [exact Hi |].
    rewrite Hget. f_equal.
    apply (resolves_unique desc desc i 0); trivial. now rewrite Hoff. }
  exists w', mode, msgs. split; [exact Hrun |]. split; [exact Hy |].
  split; [| split; [exact Hall |]].
  - pose proof (Hall 0) as H0. pose proof (Hall 1) as H1.
    pose proof (Hall 2) as H2. pose proof (Hall 3) as H3.
    pose proof (Hall 4) as H4. pose proof (Hall 5) as H5.
    pose proof (Hall 6) as H6. pose proof (Hall 7) as H7.
    destruct (m_blendModes (this w')) as [a0 a1 a2 a3 a4 a5 a6 a7].
    cbn in *. unfold Array8.fill.
    injection (H0 ltac:(lia)) as ->. injection (H1 ltac:(lia)) as ->.
    injection (H2 ltac:(lia)) as ->. injection (H3 ltac:(lia)) as ->.
    injection (H4 ltac:(lia)) as ->. injection (H5 ltac:(lia)) as ->.
    injection (H6 ltac:(lia)) as ->. injection (H7 ltac:(lia)) as ->.
    reflexivity.
  - intros i j Hi Hj. now rewrite (Hall i Hi), (Hall j Hj).
Qed.

Lemma shared_blend_modes_identical_witness :
  IndependentBlendEnable shared_desc = false /\
  exists w' mode msgs,
    run (D3D11BlendState_ctor 4096 shared_desc) stale_world = inr (tt, w') /\
    yields (DecodeBlendMode (Array8.e0 (RenderTarget shared_desc))) mode msgs /\
    m_blendModes (this w') = Array8.fill mode /\
    (forall i, 0 <= i < 8 ->
       Array8.get (m_blendModes (this w')) i = Some mode) /\
    (forall i j, 0 <= i < 8 -> 0 <= j < 8 ->
       Array8.get (m_blendModes (this w')) i =
       Array8.get (m_blendModes (this w')) j).
Proof.
  split; [reflexivity |].
  apply (shared_blend_modes_identical 4096 shared_desc stale_world).
  reflexivity.
Defined.

(** Claim C2. For two descriptors that both have [IndependentBlendEnable]
    true and hold the same sub-record in [RenderTarget[i]], the two
    constructed objects hold the same mode in slot [i], whatever the other
    sub-records, the devices and the worlds the constructors run in are. *)
Theorem independent_slot_depends_on_own_target
        (device1 device2 : D3D11Device_ptr) (desc1 desc2 : D3D11_BLEND_DESC)
        (w1 w2 : World) (i : Z) :
  IndependentBlendEnable desc1 = true ->
  IndependentBlendEnable desc2 = true ->
  0 <= i < 8 ->
  Array8.get (RenderTarget desc1) i = Array8.get (RenderTarget desc2) i ->
  exists w1' w2' mode,
    run (D3D11BlendState_ctor device1 desc1) w1 = inr (tt, w1') /\
    run (D3D11BlendState_ctor device2 desc2) w2 = inr (tt, w2') /\
    Array8.get (m_blendModes (this w1')) i = Some mode /\
    Array8.get (m_blendModes (this w2')) i = Some mode.
Proof.
  intros Hon1 Hon2 Hi Hsame.
  destruct (ctor_run desc1 device1 w1) as (w1' & Hrun1 & _ & _ & _ & _ & _ & Hs1).
  destruct (ctor_run desc2 device2 w2) as (w2' & Hrun2 & _ & _ & _ & _ & _ & Hs2).
  destruct (Hs1 i Hi) as (mode1 & Hget1 & Hres1).
  destruct (Hs2 i Hi) as (mode2 & Hget2 & Hres2).
  exists w1', w2', mode1. repeat split; trivial.
  rewrite Hget2. f_equal. symmetry.
  apply (resolves_unique desc1 desc2 i i); trivial.
  now rewrite Hon1, Hon2.
Qed.

Lemma independent_slot_depends_on_own_target_witness :
  IndependentBlendEnable (independent_desc corrupt_target) = true /\
  IndependentBlendEnable (independent_desc (opaque_target 7)) = true /\
  0 <= 2 < 8 /\
  Array8.get (RenderTarget (independent_desc corrupt_target)) 2 =
  Array8.get (RenderTarget (independent_desc (opaque_target 7))) 2 /\
  exists w1' w2' mode,
    run (D3D11BlendState_ctor 4096 (independent_desc corrupt_target))
        stale_world = inr (tt, w1') /\
    run (D3D11BlendState_ctor 8192 (independent_desc (opaque_target 7)))
        stale_world = inr (tt, w2') /\
    Array8.get (m_blendModes (this w1')) 2 = Some mode /\
    Array8.get (m_blendModes (this w2')) 2 = Some mode.
Proof.
  split; [reflexivity |]. split; [reflexivity |]. split; [lia |].
  split; [reflexivity |].
  apply (independent_slot_depends_on_own_target 4096 8192
           (independent_desc corrupt_target)
           (independent_desc (opaque_target 7)) stale_world stale_world 2);
    try reflexivity; lia.
Defined.

(** The scenario of the specification, run on stale storage: eight equal
    modes, alpha-to-coverage on, nothing logged, no context call. *)
Example ctor_shared_desc_run :
  run (D3D11BlendState_ctor 4096 shared_desc) stale_world =
  inr (tt,
       {| this :=
            {| m_device := 4096;
               m_desc := shared_desc;
               m_blendModes :=
                 Array8.fill
                   {| enableBlending := true;
                      colorSrcFactor := VK_BLEND_FACTOR_SRC_ALPHA;
                      colorDstFactor := VK_BLEND_FACTOR_ONE_MINUS_SRC_ALPHA;
                      colorBlendOp := VK_BLEND_OP_ADD;
                      alphaSrcFactor := VK_BLEND_FACTOR_ONE;
                      alphaDstFactor := VK_BLEND_FACTOR_ZERO;
                      alphaBlendOp := VK_BLEND_OP_ADD;
                      writeMask := 15 |};
               m_msState :=
                 {| sampleMask := 0;
                    enableAlphaToCoverage := true;
                    enableAlphaToOne := false;
                    enableSampleShading := false;
                    minSampleShading := float_zero |} |};
          ctx := [];
          logger := [] |}).
Proof. vm_compute. reflexivity. Qed.

(** A corrupt factor in the last target of an independent descriptor: one
    diagnostic, and slot 7 falls back to the zero factor. *)
Example ctor_corrupt_target_run :
  match run (D3D11BlendState_ctor 4096 (independent_desc corrupt_target))
            stale_world with
  | inr (_, w') =>
      logger w' = [(LogLevel_Error, "D3D11: Invalid blend factor: 99"%string)] /\
      option_map colorSrcFactor (Array8.get (m_blendModes (this w')) 7) =
        Some VK_BLEND_FACTOR_ZERO /\
      option_map colorSrcFactor (Array8.get (m_blendModes (this w')) 0) =
        Some VK_BLEND_FACTOR_SRC_ALPHA
  | inl _ => False
  end.
Proof. vm_compute. repeat split. Qed.

(** Claim C9. For every descriptor, with either setting of
    [IndependentBlendEnable], the constructor returns and [GetDesc] on the
    constructed object returns the descriptor the constructor was given,
    equal field for field, and leaves the world as it is. *)
Theorem GetDesc_returns_constructor_argument
        (device : D3D11Device_ptr) (desc : D3D11_BLEND_DESC) (w : World) :
  exists w',
    run (D3D11BlendState_ctor device desc) w = inr (tt, w') /\
    run GetDesc w' = inr (desc, w') /\
    run (D3D11BlendState_ctor device desc ;; GetDesc) w = inr (desc, w').
Proof.
  destruct (ctor_run desc device w) as (w' & Hrun & _ & Hdesc & _).
  exists w'. split; [exact Hrun |].
  assert (Hget : run GetDesc w' = inr (desc, w'))
    by (unfold GetDesc; rewrite run_read; now rewrite Hdesc).
  split; [exact Hget |]. now rewrite run_bind, Hrun.
Qed.

(** ** Field by field *)

Section Fieldwise.

(** The mode [DecodeBlendMode] yields, taken apart: the two copied fields
    and, for each of the six others, what the decoder of that field
    yields on that field alone. *)
Lemma DecodeBlendMode_fieldwise (blendDesc : D3D11_RENDER_TARGET_BLEND_DESC)
      (mode : DxvkBlendMode) (msgs : list LogEntry) :
  yields (DecodeBlendMode blendDesc) mode msgs ->
  enableBlending mode = BlendEnable blendDesc /\
  writeMask mode = RenderTargetWriteMask blendDesc /\
  (exists l, yields (DecodeBlendFactor (SrcBlend blendDesc) false)
               (colorSrcFactor mode) l) /\
  (exists l, yields (DecodeBlendFactor (DestBlend blendDesc) false)
               (colorDstFactor mode) l) /\
  (exists l, yields (DecodeBlendOp (BlendOp blendDesc))
               (colorBlendOp mode) l) /\
  (exists l, yields (DecodeBlendFactor (SrcBlendAlpha blendDesc) true)
               (alphaSrcFactor mode) l) /\
  (exists l, yields (DecodeBlendFactor (DestBlendAlpha blendDesc) true)
               (alphaDstFactor mode) l) /\
  (exists l, yields (DecodeBlendOp (BlendOpAlpha blendDesc))
               (alphaBlendOp mode) l).
Proof.
  intros Hy.
  destruct (DecodeBlendFactor_yields (SrcBlend blendDesc) false) as (? & ? & H1).
  destruct (DecodeBlendFactor_yields (DestBlend blendDesc) false) as (? & ? & H2).
  destruct (DecodeBlendOp_yields (BlendOp blendDesc)) as (? & ? & H3).
  destruct (DecodeBlendFactor_yields (SrcBlendAlpha blendDesc) true) as (? & ? & H4).
  destruct (DecodeBlendFactor_yields (DestBlendAlpha blendDesc) true) as (? & ? & H5).
  destruct (DecodeBlendOp_yields (BlendOpAlpha blendDesc)) as (? & ? & H6).
  pose proof (DecodeBlendMode_assembles _ _ _ _ _ _ _ _ _ _ _ _ _
                H1 H2 H3 H4 H5 H6) as Hasm.
  destruct (yields_unique _ _ _ _ _ stale_world Hy Hasm) as [-> _].
  cbn. repeat split; eauto.
Qed.

End Fieldwise.

(** Claim C7. For every target slot of a constructed object, the write mask
    of the resolved mode is the [RenderTargetWriteMask] of the sub-record
    the slot was resolved from, whether the [BlendEnable] of that
    sub-record is true or false. *)
Theorem writeMask_passes_through
        (device : D3D11Device_ptr) (desc : D3D11_BLEND_DESC) (w : World)
        (i : Z) :
  0 <= i < 8 ->
  exists w' effective mode,
    run (D3D11BlendState_ctor device desc) w = inr (tt, w') /\
    Array8.get (RenderTarget desc)
               (if IndependentBlendEnable desc then i else 0) = Some effective /\
    Array8.get (m_blendModes (this w')) i = Some mode /\
    writeMask mode = RenderTargetWriteMask effective /\
    enableBlending mode = BlendEnable effective.
Proof.
  intros Hi.
  destruct (ctor_run desc device w) as (w' & Hrun & _ & _ & _ & _ & _ & Hslots).
  destruct (Hslots i Hi) as (mode & Hget & (bd & msgs & Hsel & Hy)).
  apply DecodeBlendMode_fieldwise in Hy as (Hen & Hmask & _).
  exists w', bd, mode. auto.
Qed.

(** Target 3 of [independent_desc] has blending disabled and write mask 3:
    the mask of slot 3 is 3. *)
Lemma writeMask_passes_through_witness :
  0 <= 3 < 8 /\
  exists w' effective mode,
    run (D3D11BlendState_ctor 4096 (independent_desc corrupt_target))
        stale_world = inr (tt, w') /\
    Array8.get (RenderTarget (independent_desc corrupt_target))
               (if IndependentBlendEnable (independent_desc corrupt_target)
                then 3 else 0) = Some effective /\
    Array8.get (m_blendModes (this w')) 3 = Some mode /\
    writeMask mode = RenderTargetWriteMask effective /\
    enableBlending mode = BlendEnable effective.
Proof.
  split; [lia |].
  apply (writeMask_passes_through 4096 (independent_desc corrupt_target)
           stale_world 3).
  lia.
Defined.

(** Claim C10. [DecodeBlendMode] always returns, and each field of the mode
    it returns is decided by the one field of the sub-record it is decoded
    from: two sub-records that agree on a field resolve to modes that agree
    on the corresponding field, whatever their other fields hold. So an
    enumerant outside its domain changes only its own field of the mode,
    which becomes the default ([VK_BLEND_FACTOR_ZERO] for a factor,
    [VK_BLEND_OP_ADD] for an operation); [enableBlending] and [writeMask]
    are copies of [BlendEnable] and [RenderTargetWriteMask] however many
    enumerants are invalid. *)
Theorem invalid_enumerant_affects_own_field_only
        (blendDesc blendDesc' : D3D11_RENDER_TARGET_BLEND_DESC)
        (w w' : World) :
  exists mode mode' u u',
    run (DecodeBlendMode blendDesc) w = inr (mode, u) /\
    run (DecodeBlendMode blendDesc') w' = inr (mode', u') /\
    enableBlending mode = BlendEnable blendDesc /\
    writeMask mode = RenderTargetWriteMask blendDesc /\
    (BlendEnable blendDesc = BlendEnable blendDesc' ->
       enableBlending mode = enableBlending mode') /\
    (SrcBlend blendDesc = SrcBlend blendDesc' ->
       colorSrcFactor mode = colorSrcFactor mode') /\
    (DestBlend blendDesc = DestBlend blendDesc' ->
       colorDstFactor mode = colorDstFactor mode') /\
    (BlendOp blendDesc = BlendOp blendDesc' ->
       colorBlendOp mode = colorBlendOp mode') /\
    (SrcBlendAlpha blendDesc = SrcBlendAlpha blendDesc' ->
       alphaSrcFactor mode = alphaSrcFactor mode') /\
    (DestBlendAlpha blendDesc = DestBlendAlpha blendDesc' ->
       alphaDstFactor mode = alphaDstFactor mode') /\
    (BlendOpAlpha blendDesc = BlendOpAlpha blendDesc' ->
       alphaBlendOp mode = alphaBlendOp mode') /\
    (RenderTargetWriteMask blendDesc = RenderTargetWriteMask blendDesc' ->
       writeMask mode = writeMask mode') /\
    (is_enumerator D3D11_BLEND_enumerators (SrcBlend blendDesc) = false ->
       colorSrcFactor mode = VK_BLEND_FACTOR_ZERO) /\
    (is_enumerator D3D11_BLEND_enumerators (DestBlend blendDesc) = false ->
       colorDstFactor mode = VK_BLEND_FACTOR_ZERO) /\
    (is_enumerator D3D11_BLEND_OP_enumerators (BlendOp blendDesc) = false ->
       colorBlendOp mode = VK_BLEND_OP_ADD) /\
    (is_enumerator D3D11_BLEND_enumerators (SrcBlendAlpha blendDesc) = false ->
       alphaSrcFactor mode = VK_BLEND_FACTOR_ZERO) /\
    (is_enumerator D3D11_BLEND_enumerators (DestBlendAlpha blendDesc) = false ->
       alphaDstFactor mode = VK_BLEND_FACTOR_ZERO) /\
    (is_enumerator D3D11_BLEND_OP_enumerators (BlendOpAlpha blendDesc) = false ->
       alphaBlendOp mode = VK_BLEND_OP_ADD).
Proof.
  destruct (DecodeBlendMode_yields blendDesc) as (mode & msgs & Hy).
  destruct (DecodeBlendMode_yields blendDesc') as (mode' & msgs' & Hy').
  exists mode, mode', (log_all msgs w), (log_all msgs' w').
  split; [apply Hy |]. split; [apply Hy' |].
  apply DecodeBlendMode_fieldwise in Hy
    as (Hen & Hwm & [l1 H1] & [l2 H2] & [l3 H3] & [l4 H4] & [l5 H5] & [l6 H6]).
  apply DecodeBlendMode_fieldwise in Hy'
    as (Hen' & Hwm' & [k1 K1] & [k2 K2] & [k3 K3] & [k4 K4] & [k5 K5] & [k6 K6]).
  split; [exact Hen |]. split; [exact Hwm |].
  split; [congruence |].
  split; [intros E; rewrite <- E in K1;
          exact (proj1 (yields_unique _ _ _ _ _ w H1 K1)) |].
  split; [intros E; rewrite <- E in K2;
          exact (proj1 (yields_unique _ _ _ _ _ w H2 K2)) |].
  split; [intros E; rewrite <- E in K3;
          exact (proj1 (yields_unique _ _ _ _ _ w H3 K3)) |].
  split; [intros E; rewrite <- E in K4;
          exact (proj1 (yields_unique _ _ _ _ _ w H4 K4)) |].
  split; [intros E; rewrite <- E in K5;
          exact (proj1 (yields_unique _ _ _ _ _ w H5 K5)) |].
  split; [intros E; rewrite <- E in K6;
          exact (proj1 (yields_unique _ _ _ _ _ w H6 K6)) |].
  split; [congruence |].
  split; [intros E; apply (DecodeBlendFactor_invalid _ false) in E;
          exact (proj1 (yields_unique _ _ _ _ _ w H1 E)) |].
  split; [intros E; apply (DecodeBlendFactor_invalid _ false) in E;
          exact (proj1 (yields_unique _ _ _ _ _ w H2 E)) |].
  split; [intros E; apply DecodeBlendOp_invalid in E;
          exact (proj1 (yields_unique _ _ _ _ _ w H3 E)) |].
  split; [intros E; apply (DecodeBlendFactor_invalid _ true) in E;
          exact (proj1 (yields_unique _ _ _ _ _ w H4 E)) |].
  split; [intros E; apply (DecodeBlendFactor_invalid _ true) in E;
          exact (proj1 (yields_unique _ _ _ _ _ w H5 E)) |].
  intros E; apply DecodeBlendOp_invalid in E;
    exact (proj1 (yields_unique _ _ _ _ _ w H6 E)).
Qed.

(** [corrupt_target] is [alpha_blend_target] with the source factor 99: the
    two modes differ in [colorSrcFactor] at most, which is the default for
    the corrupt one. *)
Lemma invalid_enumerant_affects_own_field_only_witness :
  is_enumerator D3D11_BLEND_enumerators (SrcBlend corrupt_target) = false /\
  exists mode mode' u u',
    run (DecodeBlendMode corrupt_target) stale_world = inr (mode, u) /\
    run (DecodeBlendMode alpha_blend_target) stale_world = inr (mode', u') /\
    colorSrcFactor mode = VK_BLEND_FACTOR_ZERO /\
    enableBlending mode = enableBlending mode' /\
    colorDstFactor mode = colorDstFactor mode' /\
    colorBlendOp mode = colorBlendOp mode' /\
    alphaSrcFactor mode = alphaSrcFactor mode' /\
    alphaDstFactor mode = alphaDstFactor mode' /\
    alphaBlendOp mode = alphaBlendOp mode' /\
    writeMask mode = writeMask mode'.
Proof.
  split; [reflexivity |].
  destruct (invalid_enumerant_affects_own_field_only
              corrupt_target alpha_blend_target stale_world stale_world)
    as (mode & mode' & u & u' & Hr & Hr' & _ & _ & Hen & _ & Hcd & Hco & Has
        & Had & Hao & Hwm & Hz & _).
  exists mode, mode', u, u'.
  split; [exact Hr |]. split; [exact Hr' |].
  split; [apply Hz; reflexivity |].
  split; [apply Hen; reflexivity |].
  split; [apply Hcd; reflexivity |].
  split; [apply Hco; reflexivity |].
  split; [apply Has; reflexivity |].
  split; [apply Had; reflexivity |].
  split; [apply Hao; reflexivity |].
  apply Hwm; reflexivity.
Defined.


(** ** Binding *)

Section Binding.

Lemma for_loop_unrolled (body : Z -> M unit) :
  for_loop 0 Array8.size body =
  (body 0 ;; body 1 ;; body 2 ;; body 3 ;; body 4 ;; body 5 ;; body 6 ;;
   body 7 ;; ret tt).
Proof. reflexivity. Qed.

(** [BindToContext] returns in every world; it appends nine calls to the
    context and changes nothing else. *)
Lemma BindToContext_run (mask : Z) (w : World) :
  run (BindToContext mask) w =
  inr (tt, set_ctx (ctx w ++
     [ setBlendMode 0 (Array8.e0 (m_blendModes (this w)));
       setBlendMode 1 (Array8.e1 (m_blendModes (this w)));
       setBlendMode 2 (Array8.e2 (m_blendModes (this w)));
       setBlendMode 3 (Array8.e3 (m_blendModes (this w)));
       setBlendMode 4 (Array8.e4 (m_blendModes (this w)));
       setBlendMode 5 (Array8.e5 (m_blendModes (this w)));
       setBlendMode 6 (Array8.e6 (m_blendModes (this w)));
       setBlendMode 7 (Array8.e7 (m_blendModes (this w)));
       setMultisampleState (set_sampleMask mask (m_msState (this w))) ]) w).
Proof.
  unfold BindToContext. rewrite for_loop_unrolled.
  destruct w as [o c l]. cbn. unfold set_ctx; cbn.
  repeat rewrite <- app_assoc. reflexivity.
Qed.

Lemma Array8_get_to_list {A} (a : Array8.t A) (i : Z) (x : A) :
  Array8.get a i = Some x -> nth_error (Array8.to_list a) (Z.to_nat i) = Some x.
Proof.
  intros H. destruct i as [| p | p]; cbn in H; try discriminate;
    [exact H |].
  do 4 (destruct p as [p | p |]; try discriminate; try exact H).
Qed.

End Binding.

(** Claim C4. For every object and every sample mask, [BindToContext]
    returns after appending to the context exactly nine calls: one
    [setBlendMode] for each slot 0 to 7, in ascending order, each with the
    mode the object holds in that slot, and then one [setMultisampleState]
    whose argument is [m_msState] with [sampleMask] replaced by the mask of
    the caller and every other field as stored. *)
Theorem BindToContext_issues_calls_in_order (mask : Z) (w : World) :
  let modes := m_blendModes (this w) in
  let merged := set_sampleMask mask (m_msState (this w)) in
  let issued :=
    [ setBlendMode 0 (Array8.e0 modes); setBlendMode 1 (Array8.e1 modes);
      setBlendMode 2 (Array8.e2 modes); setBlendMode 3 (Array8.e3 modes);
      setBlendMode 4 (Array8.e4 modes); setBlendMode 5 (Array8.e5 modes);
      setBlendMode 6 (Array8.e6 modes); setBlendMode 7 (Array8.e7 modes);
      setMultisampleState merged ] in
  run (BindToContext mask) w = inr (tt, set_ctx (ctx w ++ issued) w) /\
  (forall i mode,
      Array8.get modes i = Some mode ->
      nth_error issued (Z.to_nat i) = Some (setBlendMode i mode)) /\
  sampleMask merged = mask /\
  enableAlphaToCoverage merged = enableAlphaToCoverage (m_msState (this w)) /\
  enableAlphaToOne merged = enableAlphaToOne (m_msState (this w)) /\
  enableSampleShading merged = enableSampleShading (m_msState (this w)) /\
  minSampleShading merged = minSampleShading (m_msState (this w)).
Proof.
  intros modes merged issued.
  split; [apply BindToContext_run |].
  split; [| repeat split].
  intros i mode H. subst issued.
  destruct i as [| p | p]; cbn in H; try discriminate;
    [injection H as <-; reflexivity |].
  do 4 (destruct p as [p | p |]; try discriminate;
        try (injection H as <-; reflexivity)).
Qed.

Lemma BindToContext_issues_calls_in_order_witness :
  Array8.get (m_blendModes (this stale_world)) 5 = Some stale_mode /\
  run (BindToContext 255) stale_world =
  inr (tt,
       set_ctx
         [ setBlendMode 0 stale_mode; setBlendMode 1 stale_mode;
           setBlendMode 2 stale_mode; setBlendMode 3 stale_mode;
           setBlendMode 4 stale_mode; setBlendMode 5 stale_mode;
           setBlendMode 6 stale_mode; setBlendMode 7 stale_mode;
           setMultisampleState
             (set_sampleMask 255 (m_msState stale_storage)) ]
         stale_world) /\
  nth_error
    [ setBlendMode 0 stale_mode; setBlendMode 1 stale_mode;
      setBlendMode 2 stale_mode; setBlendMode 3 stale_mode;
      setBlendMode 4 stale_mode; setBlendMode 5 stale_mode;
      setBlendMode 6 stale_mode; setBlendMode 7 stale_mode;
      setMultisampleState (set_sampleMask 255 (m_msState stale_storage)) ]
    (Z.to_nat 5) = Some (setBlendMode 5 stale_mode).
Proof.
  split; [reflexivity |].
  pose proof (BindToContext_issues_calls_in_order 255 stale_world)
    as (Hrun & Hslot & _).
  split; [exact Hrun |].
  apply (Hslot 5 stale_mode). reflexivity.
Defined.

(** Claim C5. [BindToContext] does not change the object. After two binds
    with any two masks, [this] and the log are what they were before the
    first; each bind has issued the same eight [setBlendMode] calls and one
    [setMultisampleState]; the two multisample values carry the mask of
    their own call and agree with the stored [m_msState], hence with each
    other, on every other field. The stored [m_msState] keeps its own
    [sampleMask]: the merged value is not written back. *)
Theorem BindToContext_does_not_mutate (mask1 mask2 : Z) (w : World) :
  exists w1 w2 blends ms1 ms2,
    run (BindToContext mask1) w = inr (tt, w1) /\
    run (BindToContext mask2) w1 = inr (tt, w2) /\
    run (BindToContext mask1 ;; BindToContext mask2) w = inr (tt, w2) /\
    this w1 = this w /\ this w2 = this w /\
    logger w1 = logger w /\ logger w2 = logger w /\
    ctx w1 = ctx w ++ blends ++ [setMultisampleState ms1] /\
    ctx w2 = ctx w1 ++ blends ++ [setMultisampleState ms2] /\
    sampleMask ms1 = mask1 /\ sampleMask ms2 = mask2 /\
    ms1 = set_sampleMask mask1 (m_msState (this w)) /\
    ms2 = set_sampleMask mask2 (m_msState (this w)) /\
    enableAlphaToCoverage ms1 = enableAlphaToCoverage ms2 /\
    enableAlphaToOne ms1 = enableAlphaToOne ms2 /\
    enableSampleShading ms1 = enableSampleShading ms2 /\
    minSampleShading ms1 = minSampleShading ms2.
Proof.
  pose proof (BindToContext_run mask1 w) as H1.
  match type of H1 with _ = inr (tt, ?u) => set (w1 := u) in * end.
  pose proof (BindToContext_run mask2 w1) as H2.
  match type of H2 with _ = inr (tt, ?u) => set (w2 := u) in * end.
  exists w1, w2,
    [ setBlendMode 0 (Array8.e0 (m_blendModes (this w)));
      setBlendMode 1 (Array8.e1 (m_blendModes (this w)));
      setBlendMode 2 (Array8.e2 (m_blendModes (this w)));
      setBlendMode 3 (Array8.e3 (m_blendModes (this w)));
      setBlendMode 4 (Array8.e4 (m_blendModes (this w)));
      setBlendMode 5 (Array8.e5 (m_blendModes (this w)));
      setBlendMode 6 (Array8.e6 (m_blendModes (this w)));
      setBlendMode 7 (Array8.e7 (m_blendModes (this w))) ],
    (set_sampleMask mask1 (m_msState (this w))),
    (set_sampleMask mask2 (m_msState (this w))).
  split; [exact H1 |]. split; [exact H2 |].
  split; [now rewrite run_bind, H1 |].
  repeat split.
Qed.

(** Claim C6. The sample mask that reaches the context is the one the
    caller of [BindToContext] supplies, never one kept in the object. The
    constructor stores the constant 0 in [m_msState.sampleMask], whatever
    the descriptor is; a bind with [mask] passes [mask] in its
    [setMultisampleState] call and leaves the stored 0 in place; and the
    calls a bind issues do not depend on the stored value at all. *)
Theorem sample_mask_supplied_at_bind
        (device : D3D11Device_ptr) (desc : D3D11_BLEND_DESC) (mask : Z)
        (w : World) :
  (exists w1 w2 blends ms,
      run (D3D11BlendState_ctor device desc) w = inr (tt, w1) /\
      sampleMask (m_msState (this w1)) = 0 /\
      run (BindToContext mask) w1 = inr (tt, w2) /\
      ctx w2 = ctx w1 ++ blends ++ [setMultisampleState ms] /\
      List.length blends = 8%nat /\
      sampleMask ms = mask /\
      enableAlphaToCoverage ms = AlphaToCoverageEnable desc /\
      sampleMask (m_msState (this w2)) = 0) /\
  (forall stored : Z,
      exists u u',
        run (BindToContext mask) w = inr (tt, u) /\
        run (BindToContext mask)
            (set_this
               (set_m_msState (set_sampleMask stored (m_msState (this w)))
                              (this w)) w) = inr (tt, u') /\
        ctx u = ctx u').
Proof.
  split.
  - destruct (ctor_run desc device w) as (w1 & Hrun & _ & _ & Hms & _).
    pose proof (BindToContext_run mask w1) as Hb.
    match type of Hb with _ = inr (tt, ?u) => set (w2 := u) in * end.
    exists w1, w2,
      [ setBlendMode 0 (Array8.e0 (m_blendModes (this w1)));
        setBlendMode 1 (Array8.e1 (m_blendModes (this w1)));
        setBlendMode 2 (Array8.e2 (m_blendModes (this w1)));
        setBlendMode 3 (Array8.e3 (m_blendModes (this w1)));
        setBlendMode 4 (Array8.e4 (m_blendModes (this w1)));
        setBlendMode 5 (Array8.e5 (m_blendModes (this w1)));
        setBlendMode 6 (Array8.e6 (m_blendModes (this w1)));
        setBlendMode 7 (Array8.e7 (m_blendModes (this w1))) ],
      (set_sampleMask mask (m_msState (this w1))).
    split; [exact Hrun |]. split; [now rewrite Hms |].
    split; [exact Hb |]. split; [reflexivity |]. split; [reflexivity |].
    split; [reflexivity |]. split; [cbn; now rewrite Hms |].
    subst w2. cbn. now rewrite Hms.
  - intros stored. eexists. eexists.
    split; [apply BindToContext_run |].
    split; [apply BindToContext_run |]. reflexivity.
Qed.

(** The two inputs of claim C8, decoded in a concrete world. *)
Lemma constant_factor_depends_on_channel_witness :
  run (DecodeBlendFactor D3D11_BLEND_INV_BLEND_FACTOR false) stale_world =
    inr (VK_BLEND_FACTOR_ONE_MINUS_CONSTANT_COLOR, stale_world) /\
  run (DecodeBlendFactor D3D11_BLEND_INV_BLEND_FACTOR true) stale_world =
    inr (VK_BLEND_FACTOR_ONE_MINUS_CONSTANT_ALPHA, stale_world) /\
  VK_BLEND_FACTOR_ONE_MINUS_CONSTANT_COLOR <>
    VK_BLEND_FACTOR_ONE_MINUS_CONSTANT_ALPHA.
Proof.
  split; [reflexivity |]. split; [reflexivity |].
  apply (proj2 (proj2 (proj2 (proj2 (proj2 (proj2 (proj2 (proj2
           constant_factor_depends_on_channel))))))))
    with (v := D3D11_BLEND_INV_BLEND_FACTOR)
         (w := stale_world) (w' := stale_world)
         (u := stale_world) (u' := stale_world);
    [right; reflexivity | reflexivity | reflexivity].
Defined.


(** * Further properties of the blend state *)

(** ** The decoders as tables *)

Section DecoderTables.

(** On an enumerator, the decoders return what the table says. *)
Lemma DecodeBlendFactor_enumerator_cases (v : D3D11_BLEND) :
  is_enumerator D3D11_BLEND_enumerators v = true ->
  In v D3D11_BLEND_enumerators.
Proof.
  unfold is_enumerator. intros H. apply existsb_exists in H as (x & Hin & Hx).
  apply Z.eqb_eq in Hx. now subst.
Qed.

Lemma DecodeBlendOp_enumerator_cases (v : D3D11_BLEND_OP) :
  is_enumerator D3D11_BLEND_OP_enumerators v = true ->
  In v D3D11_BLEND_OP_enumerators.
Proof.
  unfold is_enumerator. intros H. apply existsb_exists in H as (x & Hin & Hx).
  apply Z.eqb_eq in Hx. now subst.
Qed.

Lemma DecodeBlendFactor_log (v : D3D11_BLEND) (isAlpha : bool) native msgs :
  yields (DecodeBlendFactor v isAlpha) native msgs ->
  msgs = factor_diagnostics v.
Proof.
  intros Hy. unfold factor_diagnostics.
  destruct (is_enumerator D3D11_BLEND_enumerators v) eqn:E.
  - destruct (DecodeBlendFactor_valid v isAlpha E) as [n Hn].
    exact (proj2 (yields_unique _ _ _ _ _ stale_world Hy Hn)).
  - pose proof (DecodeBlendFactor_invalid v isAlpha E) as Hn.
    exact (proj2 (yields_unique _ _ _ _ _ stale_world Hy Hn)).
Qed.

Lemma DecodeBlendOp_log (v : D3D11_BLEND_OP) native msgs :
  yields (DecodeBlendOp v) native msgs -> msgs = op_diagnostics v.
Proof.
  intros Hy. unfold op_diagnostics.
  destruct (is_enumerator D3D11_BLEND_OP_enumerators v) eqn:E.
  - destruct (DecodeBlendOp_valid v E) as [n Hn].
    exact (proj2 (yields_unique _ _ _ _ _ stale_world Hy Hn)).
  - pose proof (DecodeBlendOp_invalid v E) as Hn.
    exact (proj2 (yields_unique _ _ _ _ _ stale_world Hy Hn)).
Qed.

End DecoderTables.

(** No two enumerators of [D3D11_BLEND] decode to the same native factor
    for a given channel, and no two enumerators of [D3D11_BLEND_OP] to the
    same native operation: on legal input the decoders lose nothing. *)
Theorem decoders_injective_on_enumerators :
  (forall (v v' : D3D11_BLEND) (isAlpha : bool) native msgs msgs',
      is_enumerator D3D11_BLEND_enumerators v = true ->
      is_enumerator D3D11_BLEND_enumerators v' = true ->
      yields (DecodeBlendFactor v isAlpha) native msgs ->
      yields (DecodeBlendFactor v' isAlpha) native msgs' ->
      v = v') /\
  (forall (v v' : D3D11_BLEND_OP) native msgs msgs',
      is_enumerator D3D11_BLEND_OP_enumerators v = true ->
      is_enumerator D3D11_BLEND_OP_enumerators v' = true ->
      yields (DecodeBlendOp v) native msgs ->
      yields (DecodeBlendOp v') native msgs' ->
      v = v').
Proof.
  split.
  - intros v v' isAlpha native msgs msgs' Hv Hv' Hy Hy'.
    apply DecodeBlendFactor_enumerator_cases in Hv, Hv'.
    specialize (Hy stale_world). specialize (Hy' stale_world).
    cbn [In D3D11_BLEND_enumerators] in Hv, Hv'.
    repeat (destruct Hv as [<- | Hv]);
      try contradiction;
      repeat (destruct Hv' as [<- | Hv']);
      try contradiction; try reflexivity;
      destruct isAlpha; cbv in Hy, Hy'; congruence.
  - intros v v' native msgs msgs' Hv Hv' Hy Hy'.
    apply DecodeBlendOp_enumerator_cases in Hv, Hv'.
    specialize (Hy stale_world). specialize (Hy' stale_world).
    cbn [In D3D11_BLEND_OP_enumerators] in Hv, Hv'.
    repeat (destruct Hv as [<- | Hv]);
      try contradiction;
      repeat (destruct Hv' as [<- | Hv']);
      try contradiction; try reflexivity;
      cbv in Hy, Hy'; congruence.
Qed.

Lemma decoders_injective_on_enumerators_witness :
  is_enumerator D3D11_BLEND_enumerators D3D11_BLEND_SRC_ALPHA = true /\
  yields (DecodeBlendFactor D3D11_BLEND_SRC_ALPHA true)
    VK_BLEND_FACTOR_SRC_ALPHA [] /\
  D3D11_BLEND_SRC_ALPHA = D3D11_BLEND_SRC_ALPHA.
Proof.
  split; [reflexivity |]. split; [apply yields_ret |].
  apply (proj1 decoders_injective_on_enumerators
           D3D11_BLEND_SRC_ALPHA D3D11_BLEND_SRC_ALPHA true
           VK_BLEND_FACTOR_SRC_ALPHA [] []);
    try reflexivity; apply yields_ret.
Defined.

Section RunOfYields.

Lemma yields_run {A} (m : M A) (a a' : A) msgs (w w' : World) :
  yields m a msgs -> run m w = inr (a', w') ->
  a' = a /\ w' = log_all msgs w.
Proof. intros Hy Hr. rewrite (Hy w) in Hr. injection Hr as <- <-. auto. Qed.

Lemma log_all_fixed (msgs : list LogEntry) (w : World) :
  log_all msgs w = w <-> msgs = [].
Proof.
  split.
  - intros H. apply (f_equal logger) in H. cbn in H.
    rewrite <- (app_nil_r (logger w)) in H at 2.
    now apply app_inv_head in H.
  - intros ->. apply log_all_nil.
Qed.

End RunOfYields.

(** The fallback of a decoder is also the image of an enumerator: the
    native factor is [VK_BLEND_FACTOR_ZERO] exactly when the input is
    [D3D11_BLEND_ZERO] or no enumerator, and the native operation is
    [VK_BLEND_OP_ADD] exactly when the input is [D3D11_BLEND_OP_ADD] or no
    enumerator. The two cases differ only by the log, which is left as it
    was exactly when the input is an enumerator. *)
Theorem decoder_fallback_aliases_enumerator :
  (forall (v : D3D11_BLEND) (isAlpha : bool) (w w' : World) native,
      run (DecodeBlendFactor v isAlpha) w = inr (native, w') ->
      (native = VK_BLEND_FACTOR_ZERO <->
       v = D3D11_BLEND_ZERO \/
       is_enumerator D3D11_BLEND_enumerators v = false) /\
      (w' = w <-> is_enumerator D3D11_BLEND_enumerators v = true)) /\
  (forall (v : D3D11_BLEND_OP) (w w' : World) native,
      run (DecodeBlendOp v) w = inr (native, w') ->
      (native = VK_BLEND_OP_ADD <->
       v = D3D11_BLEND_OP_ADD \/
       is_enumerator D3D11_BLEND_OP_enumerators v = false) /\
      (w' = w <-> is_enumerator D3D11_BLEND_OP_enumerators v = true)).
Proof.
  split.
  - intros v isAlpha w w' native Hr.
    destruct (is_enumerator D3D11_BLEND_enumerators v) eqn:E.
    + pose proof (DecodeBlendFactor_enumerator_cases v E) as Hin.
      cbn [In D3D11_BLEND_enumerators] in Hin.
      repeat (destruct Hin as [<- | Hin]); try contradiction;
        destruct isAlpha; cbv in Hr; injection Hr as <- <-;
        (split; [split; [try discriminate; auto
                        | intros [H | H]; [try discriminate H; auto
                                          | discriminate H]]
                | split; auto]).
    + destruct (yields_run _ _ _ _ w w'
                  (DecodeBlendFactor_invalid v isAlpha E) Hr) as [-> ->].
      split; [split; auto |].
      rewrite log_all_fixed. split; discriminate.
  - intros v w w' native Hr.
    destruct (is_enumerator D3D11_BLEND_OP_enumerators v) eqn:E.
    + pose proof (DecodeBlendOp_enumerator_cases v E) as Hin.
      cbn [In D3D11_BLEND_OP_enumerators] in Hin.
      repeat (destruct Hin as [<- | Hin]); try contradiction;
        cbv in Hr; injection Hr as <- <-;
        (split; [split; [try discriminate; auto
                        | intros [H | H]; [try discriminate H; auto
                                          | discriminate H]]
                | split; auto]).
    + destruct (yields_run _ _ _ _ w w' (DecodeBlendOp_invalid v E) Hr)
        as [-> ->].
      split; [split; auto |].
      rewrite log_all_fixed. split; discriminate.
Qed.

Lemma decoder_fallback_aliases_enumerator_witness :
  run (DecodeBlendFactor 99 false) stale_world =
    inr (VK_BLEND_FACTOR_ZERO,
         log_all [(LogLevel_Error, "D3D11: Invalid blend factor: 99"%string)]
                 stale_world) /\
  (VK_BLEND_FACTOR_ZERO = VK_BLEND_FACTOR_ZERO <->
   99 = D3D11_BLEND_ZERO \/
   is_enumerator D3D11_BLEND_enumerators 99 = false).
Proof.
  split; [reflexivity |].
  apply (proj1 decoder_fallback_aliases_enumerator 99 false stale_world
           (log_all [(LogLevel_Error, "D3D11: Invalid blend factor: 99"%string)]
                    stale_world) VK_BLEND_FACTOR_ZERO).
  reflexivity.
Defined.

(** [isAlpha] matters for two inputs only: for every value other than
    [D3D11_BLEND_BLEND_FACTOR] and [D3D11_BLEND_INV_BLEND_FACTOR], enumerator
    or not, [DecodeBlendFactor] returns the same factor and leaves the same
    world for both channels. *)
Theorem isAlpha_only_selects_constant_factors
        (v : D3D11_BLEND) (w : World) :
  v <> D3D11_BLEND_BLEND_FACTOR ->
  v <> D3D11_BLEND_INV_BLEND_FACTOR ->
  run (DecodeBlendFactor v false) w = run (DecodeBlendFactor v true) w.
Proof.
  intros Hc Hi.
  destruct (is_enumerator D3D11_BLEND_enumerators v) eqn:E.
  - pose proof (DecodeBlendFactor_enumerator_cases v E) as Hin.
    cbn [In D3D11_BLEND_enumerators] in Hin.
    repeat (destruct Hin as [<- | Hin]); try contradiction;
      try reflexivity; congruence.
  - now rewrite (DecodeBlendFactor_invalid v false E w),
                (DecodeBlendFactor_invalid v true E w).
Qed.

Lemma isAlpha_only_selects_constant_factors_witness :
  D3D11_BLEND_DEST_COLOR <> D3D11_BLEND_BLEND_FACTOR /\
  D3D11_BLEND_DEST_COLOR <> D3D11_BLEND_INV_BLEND_FACTOR /\
  run (DecodeBlendFactor D3D11_BLEND_DEST_COLOR false) stale_world =
  run (DecodeBlendFactor D3D11_BLEND_DEST_COLOR true) stale_world.
Proof.
  split; [discriminate |]. split; [discriminate |].
  apply (isAlpha_only_selects_constant_factors
           D3D11_BLEND_DEST_COLOR stale_world); discriminate.
Defined.

(** ** Modes *)

Section ModeFacts.

Lemma color_factor_not_constant_alpha (v : D3D11_BLEND) native msgs :
  yields (DecodeBlendFactor v false) native msgs ->
  native <> VK_BLEND_FACTOR_CONSTANT_ALPHA /\
  native <> VK_BLEND_FACTOR_ONE_MINUS_CONSTANT_ALPHA.
Proof.
  intros Hy. destruct (is_enumerator D3D11_BLEND_enumerators v) eqn:E.
  - pose proof (DecodeBlendFactor_enumerator_cases v E) as Hin.
    specialize (Hy stale_world).
    cbn [In D3D11_BLEND_enumerators] in Hin.
    repeat (destruct Hin as [<- | Hin]); try contradiction;
      cbv in Hy; injection Hy as <- _; split; discriminate.
  - destruct (yields_unique _ _ _ _ _ stale_world Hy
                (DecodeBlendFactor_invalid v false E)) as [-> _].
    split; discriminate.
Qed.

Lemma alpha_factor_not_constant_color (v : D3D11_BLEND) native msgs :
  yields (DecodeBlendFactor v true) native msgs ->
  native <> VK_BLEND_FACTOR_CONSTANT_COLOR /\
  native <> VK_BLEND_FACTOR_ONE_MINUS_CONSTANT_COLOR.
Proof.
  intros Hy. destruct (is_enumerator D3D11_BLEND_enumerators v) eqn:E.
  - pose proof (DecodeBlendFactor_enumerator_cases v E) as Hin.
    specialize (Hy stale_world).
    cbn [In D3D11_BLEND_enumerators] in Hin.
    repeat (destruct Hin as [<- | Hin]); try contradiction;
      cbv in Hy; injection Hy as <- _; split; discriminate.
  - destruct (yields_unique _ _ _ _ _ stale_world Hy
                (DecodeBlendFactor_invalid v true E)) as [-> _].
    split; discriminate.
Qed.

Lemma DecodeBlendMode_log (blendDesc : D3D11_RENDER_TARGET_BLEND_DESC)
      mode msgs :
  yields (DecodeBlendMode blendDesc) mode msgs ->
  msgs = mode_diagnostics blendDesc.
Proof.
  intros Hy.
  destruct (DecodeBlendFactor_yields (SrcBlend blendDesc) false) as (? & l1 & H1).
  destruct (DecodeBlendFactor_yields (DestBlend blendDesc) false) as (? & l2 & H2).
  destruct (DecodeBlendOp_yields (BlendOp blendDesc)) as (? & l3 & H3).
  destruct (DecodeBlendFactor_yields (SrcBlendAlpha blendDesc) true) as (? & l4 & H4).
  destruct (DecodeBlendFactor_yields (DestBlendAlpha blendDesc) true) as (? & l5 & H5).
  destruct (DecodeBlendOp_yields (BlendOpAlpha blendDesc)) as (? & l6 & H6).
  pose proof (DecodeBlendMode_assembles _ _ _ _ _ _ _ _ _ _ _ _ _
                H1 H2 H3 H4 H5 H6) as Hasm.
  destruct (yields_unique _ _ _ _ _ stale_world Hy Hasm) as [_ ->].
  unfold mode_diagnostics.
  rewrite (DecodeBlendFactor_log _ _ _ _ H1), (DecodeBlendFactor_log _ _ _ _ H2),
    (DecodeBlendOp_log _ _ _ H3), (DecodeBlendFactor_log _ _ _ _ H4),
    (DecodeBlendFactor_log _ _ _ _ H5), (DecodeBlendOp_log _ _ _ H6).
  now rewrite app_nil_r.
Qed.

Lemma mode_diagnostics_nil (blendDesc : D3D11_RENDER_TARGET_BLEND_DESC) :
  mode_diagnostics blendDesc = [] <-> well_formed_target blendDesc = true.
Proof.
  unfold mode_diagnostics, well_formed_target, factor_diagnostics,
    op_diagnostics.
  destruct (is_enumerator D3D11_BLEND_enumerators (SrcBlend blendDesc));
    [| cbn; split; discriminate].
  destruct (is_enumerator D3D11_BLEND_enumerators (DestBlend blendDesc));
    [| cbn; split; discriminate].
  destruct (is_enumerator D3D11_BLEND_OP_enumerators (BlendOp blendDesc));
    [| cbn; split; discriminate].
  destruct (is_enumerator D3D11_BLEND_enumerators (SrcBlendAlpha blendDesc));
    [| cbn; split; discriminate].
  destruct (is_enumerator D3D11_BLEND_enumerators (DestBlendAlpha blendDesc));
    [| cbn; split; discriminate].
  destruct (is_enumerator D3D11_BLEND_OP_enumerators (BlendOpAlpha blendDesc));
    cbn; split; (discriminate || reflexivity).
Qed.

End ModeFacts.

(** A resolved mode never mixes the channels of the constant blend factor:
    whatever the sub-record holds, its color factors are never one of the
    two constant-alpha enumerators and its alpha factors never one of the
    two constant-color enumerators. *)
Theorem DecodeBlendMode_keeps_constant_factor_channels
        (blendDesc : D3D11_RENDER_TARGET_BLEND_DESC) (w w' : World)
        (mode : DxvkBlendMode) :
  run (DecodeBlendMode blendDesc) w = inr (mode, w') ->
  (colorSrcFactor mode <> VK_BLEND_FACTOR_CONSTANT_ALPHA /\
   colorSrcFactor mode <> VK_BLEND_FACTOR_ONE_MINUS_CONSTANT_ALPHA) /\
  (colorDstFactor mode <> VK_BLEND_FACTOR_CONSTANT_ALPHA /\
   colorDstFactor mode <> VK_BLEND_FACTOR_ONE_MINUS_CONSTANT_ALPHA) /\
  (alphaSrcFactor mode <> VK_BLEND_FACTOR_CONSTANT_COLOR /\
   alphaSrcFactor mode <> VK_BLEND_FACTOR_ONE_MINUS_CONSTANT_COLOR) /\
  (alphaDstFactor mode <> VK_BLEND_FACTOR_CONSTANT_COLOR /\
   alphaDstFactor mode <> VK_BLEND_FACTOR_ONE_MINUS_CONSTANT_COLOR).
Proof.
  intros Hr.
  destruct (DecodeBlendMode_yields blendDesc) as (mode0 & msgs & Hy).
  destruct (yields_run _ _ _ _ _ _ Hy Hr) as [-> _].
  apply DecodeBlendMode_fieldwise in Hy
    as (_ & _ & [l1 H1] & [l2 H2] & _ & [l4 H4] & [l5 H5] & _).
  split; [exact (color_factor_not_constant_alpha _ _ _ H1) |].
  split; [exact (color_factor_not_constant_alpha _ _ _ H2) |].
  split; [exact (alpha_factor_not_constant_color _ _ _ H4) |].
  exact (alpha_factor_not_constant_color _ _ _ H5).
Qed.

Lemma DecodeBlendMode_keeps_constant_factor_channels_witness :
  exists mode w',
    run (DecodeBlendMode (opaque_target 3)) stale_world = inr (mode, w') /\
    alphaSrcFactor mode = VK_BLEND_FACTOR_CONSTANT_ALPHA /\
    alphaSrcFactor mode <> VK_BLEND_FACTOR_CONSTANT_COLOR.
Proof.
  eexists. eexists. split; [reflexivity |]. split; [reflexivity |].
  apply (DecodeBlendMode_keeps_constant_factor_channels
           (opaque_target 3) stale_world stale_world _ eq_refl).
Defined.

(** [DecodeBlendMode] logs one error for each enumerant of the sub-record
    that is no enumerator, in the order color source, color destination,
    color operation, alpha source, alpha destination, alpha operation, and
    nothing else; so it leaves the world as it was exactly when all six
    enumerants are enumerators, and it never touches the object or the
    context. *)
Theorem DecodeBlendMode_logs_each_invalid_enumerant
        (blendDesc : D3D11_RENDER_TARGET_BLEND_DESC) (w w' : World)
        (mode : DxvkBlendMode) :
  run (DecodeBlendMode blendDesc) w = inr (mode, w') ->
  logger w' = logger w ++ mode_diagnostics blendDesc /\
  this w' = this w /\ ctx w' = ctx w /\
  List.length (mode_diagnostics blendDesc) =
    (List.length
       (filter (fun v => negb (is_enumerator D3D11_BLEND_enumerators v))
               [SrcBlend blendDesc; DestBlend blendDesc;
                SrcBlendAlpha blendDesc; DestBlendAlpha blendDesc]) +
     List.length
       (filter (fun v => negb (is_enumerator D3D11_BLEND_OP_enumerators v))
               [BlendOp blendDesc; BlendOpAlpha blendDesc]))%nat /\
  (w' = w <-> well_formed_target blendDesc = true).
Proof.
  intros Hr.
  destruct (DecodeBlendMode_yields blendDesc) as (mode0 & msgs & Hy).
  destruct (yields_run _ _ _ _ _ _ Hy Hr) as [-> ->].
  rewrite (DecodeBlendMode_log _ _ _ Hy).
  split; [reflexivity |]. split; [reflexivity |]. split; [reflexivity |].
  split.
  - unfold mode_diagnostics, factor_diagnostics, op_diagnostics. cbn [filter].
    destruct (is_enumerator D3D11_BLEND_enumerators (SrcBlend blendDesc));
    destruct (is_enumerator D3D11_BLEND_enumerators (DestBlend blendDesc));
    destruct (is_enumerator D3D11_BLEND_OP_enumerators (BlendOp blendDesc));
    destruct (is_enumerator D3D11_BLEND_enumerators (SrcBlendAlpha blendDesc));
    destruct (is_enumerator D3D11_BLEND_enumerators (DestBlendAlpha blendDesc));
    destruct (is_enumerator D3D11_BLEND_OP_enumerators (BlendOpAlpha blendDesc));
    reflexivity.
  - rewrite log_all_fixed. apply mode_diagnostics_nil.
Qed.

(** A sub-record with three invalid enumerants: three errors, in decoding
    order. *)
Lemma DecodeBlendMode_logs_each_invalid_enumerant_witness :
  exists mode w',
    run (DecodeBlendMode
           {| BlendEnable := true; SrcBlend := 12; DestBlend := D3D11_BLEND_ONE;
              BlendOp := 0; SrcBlendAlpha := D3D11_BLEND_ONE;
              DestBlendAlpha := (-1); BlendOpAlpha := D3D11_BLEND_OP_MAX;
              RenderTargetWriteMask := 15 |}) stale_world = inr (mode, w') /\
    logger w' =
      [ (LogLevel_Error, "D3D11: Invalid blend factor: 12"%string);
        (LogLevel_Error, "D3D11: Invalid blend op: 0"%string);
        (LogLevel_Error, "D3D11: Invalid blend factor: -1"%string) ].
Proof.
  match goal with
  | |- exists mode w', run ?m ?w = _ /\ _ =>
      assert (H : exists mode w', run m w = inr (mode, w'))
        by (vm_compute; eauto)
  end.
  destruct H as (mode & w' & Hr). exists mode, w'. split; [exact Hr |].
  exact (proj1 (DecodeBlendMode_logs_each_invalid_enumerant _ _ _ _ Hr)).
Defined.

(** ** What the constructor logs *)

Section ConstructorLog.

Variable desc : D3D11_BLEND_DESC.

Lemma effective_targets_skipn (i : Z) (blendDesc : D3D11_RENDER_TARGET_BLEND_DESC) :
  0 <= i < Array8.size ->
  Array8.get (RenderTarget desc) (if IndependentBlendEnable desc then i else 0)
    = Some blendDesc ->
  skipn (Z.to_nat i) (effective_targets desc) =
  blendDesc :: skipn (S (Z.to_nat i)) (effective_targets desc).
Proof.
  intros Hi Hget. apply Array8_index_cases in Hi.
  unfold effective_targets.
  destruct (IndependentBlendEnable desc);
    repeat (destruct Hi as [-> | Hi];
            [cbn in Hget; injection Hget as <-; reflexivity |]);
    subst; cbn in Hget; injection Hget as <-; reflexivity.
Qed.

Lemma ctor_body_log (i : Z) (w : World) :
  0 <= i < Array8.size ->
  exists blendDesc w',
    Array8.get (RenderTarget desc)
               (if IndependentBlendEnable desc then i else 0) = Some blendDesc /\
    run (ctor_loop_body desc i) w = inr (tt, w') /\
    logger w' = logger w ++ mode_diagnostics blendDesc.
Proof.
  intros Hi.
  assert (Hsel : 0 <= (if IndependentBlendEnable desc then i else 0)
                 < Array8.size)
    by (destruct (IndependentBlendEnable desc); unfold Array8.size in *; lia).
  destruct (Array8_get_in_bounds (RenderTarget desc) _ Hsel) as [bd Hbd].
  destruct (DecodeBlendMode_yields bd) as (mode & msgs & Hmode).
  destruct (Array8_set_in_bounds (m_blendModes (this w)) i mode Hi)
    as (a' & Hset & _ & _).
  exists bd. eexists. split; [exact Hbd |].
  unfold ctor_loop_body. rewrite run_bind.
  assert (Hidx : run (if IndependentBlendEnable desc
                      then index (RenderTarget desc) i
                      else index (RenderTarget desc) 0) w = inr (bd, w)).
  { destruct (IndependentBlendEnable desc); unfold index; now rewrite Hbd. }
  rewrite Hidx, run_bind, Hmode, run_bind, run_read, run_bind.
  unfold at_assign.
  change (m_blendModes (this (log_all msgs w))) with (m_blendModes (this w)).
  rewrite Hset, run_ret, run_update.
  split; [reflexivity |]. cbn.
  now rewrite (DecodeBlendMode_log _ _ _ Hmode).
Qed.

Lemma ctor_loop_log (n : nat) :
  forall (i : Z) (w : World),
    0 <= i -> i + Z.of_nat n <= Array8.size ->
    exists w',
      run (for_count n i (ctor_loop_body desc)) w = inr (tt, w') /\
      logger w' =
        logger w ++
        List.concat (map mode_diagnostics
                    (firstn n (skipn (Z.to_nat i) (effective_targets desc)))).
Proof.
  induction n as [| n IH]; intros i w Hlo Hhi.
  - exists w. cbn. now rewrite app_nil_r.
  - destruct (ctor_body_log i w) as (bd & w1 & Hget & Hrun & Hlog); [lia |].
    destruct (IH (i + 1) w1) as (w' & Hrun' & Hlog'); [lia | lia |].
    exists w'. rewrite for_count_succ, Hrun. split; [exact Hrun' |].
    rewrite Hlog', Hlog, (effective_targets_skipn i bd) by (trivial; lia).
    replace (Z.to_nat (i + 1)) with (S (Z.to_nat i)) by lia.
    cbn [firstn map List.concat]. now rewrite <- app_assoc.
Qed.

Lemma ctor_log (device : D3D11Device_ptr) (w w' : World) :
  run (D3D11BlendState_ctor device desc) w = inr (tt, w') ->
  logger w' =
    logger w ++ List.concat (map mode_diagnostics (effective_targets desc)).
Proof.
  unfold D3D11BlendState_ctor, for_loop.
  change (Z.to_nat (Array8.size - 0)) with 8%nat.
  rewrite run_bind, run_update, run_bind, run_update, run_bind.
  destruct (ctor_loop_log 8 0
              (set_this (set_m_desc desc
                 (this (set_this (set_m_device device (this w)) w)))
                 (set_this (set_m_device device (this w)) w)))
    as (w1 & Hrun & Hlog); [lia | unfold Array8.size; lia |].
  rewrite Hrun. intros H. injection H as <-. cbn.
  rewrite Hlog. cbn [logger set_this].
  unfold effective_targets.
  destruct (IndependentBlendEnable desc); reflexivity.
Qed.

End ConstructorLog.

Section ObjectEquality.

Lemma Array8_ext {A} (a b : Array8.t A) :
  (forall i, 0 <= i < Array8.size -> Array8.get a i = Array8.get b i) ->
  a = b.
Proof.
  intros H. unfold Array8.size in H.
  pose proof (H 0 ltac:(lia)) as H0. pose proof (H 1 ltac:(lia)) as H1.
  pose proof (H 2 ltac:(lia)) as H2. pose proof (H 3 ltac:(lia)) as H3.
  pose proof (H 4 ltac:(lia)) as H4. pose proof (H 5 ltac:(lia)) as H5.
  pose proof (H 6 ltac:(lia)) as H6. pose proof (H 7 ltac:(lia)) as H7.
  destruct a, b. cbn in *. congruence.
Qed.

Lemma D3D11BlendState_ext (o o' : D3D11BlendState) :
  m_device o = m_device o' -> m_desc o = m_desc o' ->
  m_blendModes o = m_blendModes o' -> m_msState o = m_msState o' ->
  o = o'.
Proof. destruct o, o'. cbn. congruence. Qed.

End ObjectEquality.

(** The constructor logs, after what the log held, the diagnostics of the
    sub-record each slot is resolved from, slot 0 first. So a descriptor
    whose selected sub-records hold only enumerators is constructed without
    any log entry, and only such a descriptor is. *)
Theorem ctor_logs_diagnostics_per_slot
        (device : D3D11Device_ptr) (desc : D3D11_BLEND_DESC) (w w' : World) :
  run (D3D11BlendState_ctor device desc) w = inr (tt, w') ->
  logger w' =
    logger w ++ List.concat (map mode_diagnostics (effective_targets desc)) /\
  (logger w' = logger w <->
   forallb well_formed_target (effective_targets desc) = true).
Proof.
  intros Hr. pose proof (ctor_log desc device w w' Hr) as Hlog.
  split; [exact Hlog |]. rewrite Hlog.
  assert (Hnil : forall l : list D3D11_RENDER_TARGET_BLEND_DESC,
             List.concat (map mode_diagnostics l) = [] <->
             forallb well_formed_target l = true).
  { induction l as [| bd l IH]; cbn; [tauto |].
    rewrite andb_true_iff, <- IH, <- mode_diagnostics_nil.
    split.
    - intros H. now apply app_eq_nil in H.
    - intros [-> ->]. reflexivity. }
  rewrite <- Hnil. split.
  - intros H. rewrite <- (app_nil_r (logger w)) in H at 2.
    now apply app_inv_head in H.
  - intros ->. apply app_nil_r.
Qed.

Lemma ctor_logs_diagnostics_per_slot_witness :
  exists w',
    run (D3D11BlendState_ctor 4096 (independent_desc corrupt_target))
        stale_world = inr (tt, w') /\
    logger w' = [(LogLevel_Error, "D3D11: Invalid blend factor: 99"%string)].
Proof.
  assert (H : exists w',
             run (D3D11BlendState_ctor 4096 (independent_desc corrupt_target))
                 stale_world = inr (tt, w'))
    by (vm_compute; eauto).
  destruct H as (w' & Hr). exists w'. split; [exact Hr |].
  exact (proj1 (ctor_logs_diagnostics_per_slot _ _ _ _ Hr)).
Defined.

(** With [IndependentBlendEnable] false, an invalid enumerant of
    [RenderTarget[0]] is reported eight times, once for each slot, and the
    sub-records 1 to 7 are never reported, whatever they hold. *)
Theorem shared_target_diagnosed_eight_times
        (device : D3D11Device_ptr) (desc : D3D11_BLEND_DESC) (w w' : World) :
  IndependentBlendEnable desc = false ->
  run (D3D11BlendState_ctor device desc) w = inr (tt, w') ->
  logger w' =
    logger w ++
    List.concat (repeat (mode_diagnostics (Array8.e0 (RenderTarget desc))) 8) /\
  List.length (logger w') =
    (List.length (logger w) +
     8 * List.length (mode_diagnostics (Array8.e0 (RenderTarget desc))))%nat.
Proof.
  intros Hoff Hr. pose proof (ctor_log desc device w w' Hr) as Hlog.
  unfold effective_targets in Hlog. rewrite Hoff in Hlog. cbn in Hlog.
  split; [rewrite Hlog; reflexivity |].
  rewrite Hlog. repeat rewrite length_app. cbn. lia.
Qed.

Lemma shared_target_diagnosed_eight_times_witness :
  IndependentBlendEnable corrupt_shared_desc = false /\
  exists w',
    run (D3D11BlendState_ctor 4096 corrupt_shared_desc) stale_world
      = inr (tt, w') /\
    logger w' =
      repeat (LogLevel_Error, "D3D11: Invalid blend factor: 99"%string) 8.
Proof.
  split; [reflexivity |].
  assert (H : exists w',
             run (D3D11BlendState_ctor 4096 corrupt_shared_desc) stale_world
               = inr (tt, w'))
    by (vm_compute; eauto).
  destruct H as (w' & Hr). exists w'. split; [exact Hr |].
  exact (proj1 (shared_target_diagnosed_eight_times
                  4096 corrupt_shared_desc stale_world w' eq_refl Hr)).
Defined.

(** ** The constructed object *)

Section ConstructedObject.

Lemma ctor_object_determined
      (device : D3D11Device_ptr) (desc : D3D11_BLEND_DESC)
      (w1 w2 w1' w2' : World) :
  run (D3D11BlendState_ctor device desc) w1 = inr (tt, w1') ->
  run (D3D11BlendState_ctor device desc) w2 = inr (tt, w2') ->
  this w1' = this w2'.
Proof.
  intros H1 H2.
  destruct (ctor_run desc device w1) as (u1 & R1 & Hd1 & Hc1 & Hm1 & _ & _ & Hs1).
  destruct (ctor_run desc device w2) as (u2 & R2 & Hd2 & Hc2 & Hm2 & _ & _ & Hs2).
  rewrite R1 in H1. injection H1 as <-. rewrite R2 in H2. injection H2 as <-.
  apply D3D11BlendState_ext; try congruence.
  apply Array8_ext. intros i Hi.
  destruct (Hs1 i Hi) as (m1 & G1 & Q1). destruct (Hs2 i Hi) as (m2 & G2 & Q2).
  rewrite G1, G2. f_equal. now apply (resolves_unique desc desc i i).
Qed.

Lemma ctor_shared_fill
      (device : D3D11Device_ptr) (desc : D3D11_BLEND_DESC) (w w' : World) :
  IndependentBlendEnable desc = false ->
  run (D3D11BlendState_ctor device desc) w = inr (tt, w') ->
  m_blendModes (this w') = Array8.fill (Array8.e0 (m_blendModes (this w'))).
Proof.
  intros Hoff Hr.
  destruct (ctor_run desc device w) as (u & R & _ & _ & _ & _ & _ & Hs).
  rewrite R in Hr. injection Hr as <-.
  apply Array8_ext. intros i Hi.
  destruct (Hs i Hi) as (m & G & Q).
  destruct (Hs 0 ltac:(unfold Array8.size; lia)) as (m0 & G0 & Q0).
  assert (m = m0)
    by (apply (resolves_unique desc desc i 0); trivial; now rewrite Hoff).
  subst m0. rewrite G. cbn in G0. injection G0 as ->.
  apply Array8_index_cases in Hi.
  repeat (destruct Hi as [-> | Hi]; [reflexivity |]). subst. reflexivity.
Qed.

End ConstructedObject.

(** The constructor initializes every member: the object it leaves is the
    same whatever its storage, the context and the log held before, and it
    issues no context call. *)
Theorem ctor_overwrites_storage
        (device : D3D11Device_ptr) (desc : D3D11_BLEND_DESC) (w1 w2 : World) :
  exists w1' w2',
    run (D3D11BlendState_ctor device desc) w1 = inr (tt, w1') /\
    run (D3D11BlendState_ctor device desc) w2 = inr (tt, w2') /\
    this w1' = this w2' /\
    m_device (this w1') = device /\
    ctx w1' = ctx w1 /\ ctx w2' = ctx w2.
Proof.
  destruct (ctor_run desc device w1) as (u1 & R1 & Hd1 & _ & _ & Hc1 & _).
  destruct (ctor_run desc device w2) as (u2 & R2 & _ & _ & _ & Hc2 & _).
  exists u1, u2. repeat split; trivial.
  exact (ctor_object_determined device desc w1 w2 u1 u2 R1 R2).
Qed.

(** With [IndependentBlendEnable] false the sub-records 1 to 7 are dead
    input: two descriptors that agree on [AlphaToCoverageEnable] and on
    [RenderTarget[0]] give the same modes, the same multisample state and
    the same log, however their other sub-records differ. Only [GetDesc]
    tells the two objects apart. *)
Theorem shared_blend_ignores_other_targets
        (device : D3D11Device_ptr) (desc1 desc2 : D3D11_BLEND_DESC)
        (w : World) :
  IndependentBlendEnable desc1 = false ->
  IndependentBlendEnable desc2 = false ->
  AlphaToCoverageEnable desc1 = AlphaToCoverageEnable desc2 ->
  Array8.get (RenderTarget desc1) 0 = Array8.get (RenderTarget desc2) 0 ->
  exists w1 w2,
    run (D3D11BlendState_ctor device desc1) w = inr (tt, w1) /\
    run (D3D11BlendState_ctor device desc2) w = inr (tt, w2) /\
    m_blendModes (this w1) = m_blendModes (this w2) /\
    m_msState (this w1) = m_msState (this w2) /\
    logger w1 = logger w2 /\
    m_desc (this w1) = desc1 /\ m_desc (this w2) = desc2.
Proof.
  intros Hoff1 Hoff2 Ha2c Hrt.
  destruct (ctor_run desc1 device w) as (u1 & R1 & _ & Hc1 & Hm1 & _ & _ & Hs1).
  destruct (ctor_run desc2 device w) as (u2 & R2 & _ & Hc2 & Hm2 & _ & _ & Hs2).
  exists u1, u2. split; [exact R1 |]. split; [exact R2 |].
  split; [| split; [| split; [| split; trivial]]].
  - apply Array8_ext. intros i Hi.
    destruct (Hs1 i Hi) as (m1 & G1 & Q1). destruct (Hs2 i Hi) as (m2 & G2 & Q2).
    rewrite G1, G2. f_equal. apply (resolves_unique desc1 desc2 i i); trivial.
    now rewrite Hoff1, Hoff2.
  - rewrite Hm1, Hm2. now rewrite Ha2c.
  - rewrite (ctor_log desc1 device w u1 R1), (ctor_log desc2 device w u2 R2).
    unfold effective_targets. rewrite Hoff1, Hoff2.
    cbn in Hrt. injection Hrt as ->. reflexivity.
Qed.

Lemma shared_blend_ignores_other_targets_witness :
  IndependentBlendEnable shared_desc = false /\
  AlphaToCoverageEnable shared_desc =
    AlphaToCoverageEnable
      {| AlphaToCoverageEnable := true; IndependentBlendEnable := false;
         RenderTarget := Array8.fill alpha_blend_target |} /\
  exists w1 w2,
    run (D3D11BlendState_ctor 4096 shared_desc) stale_world = inr (tt, w1) /\
    run (D3D11BlendState_ctor 4096
           {| AlphaToCoverageEnable := true; IndependentBlendEnable := false;
              RenderTarget := Array8.fill alpha_blend_target |})
        stale_world = inr (tt, w2) /\
    m_blendModes (this w1) = m_blendModes (this w2) /\
    m_msState (this w1) = m_msState (this w2) /\
    logger w1 = logger w2.
Proof.
  split; [reflexivity |]. split; [reflexivity |].
  destruct (shared_blend_ignores_other_targets 4096 shared_desc
              {| AlphaToCoverageEnable := true; IndependentBlendEnable := false;
                 RenderTarget := Array8.fill alpha_blend_target |}
              stale_world eq_refl eq_refl eq_refl eq_refl)
    as (w1 & w2 & R1 & R2 & Hm & Hs & Hl & _).
  exists w1, w2. auto.
Defined.

(** ** Construction followed by binding *)

(** Constructing an object and binding it sends the context, for each slot
    in ascending order, the mode resolved from the sub-record the
    constructor selects for that slot, and then the multisample state made
    of the caller's mask, the descriptor's alpha-to-coverage flag and the
    fixed values false, false and 0.0. With [IndependentBlendEnable] false
    the eight modes sent are one and the same. Binding logs nothing. *)
Theorem construct_then_bind
        (device : D3D11Device_ptr) (desc : D3D11_BLEND_DESC) (mask : Z)
        (w : World) :
  exists w1 w2 modes,
    run (D3D11BlendState_ctor device desc) w = inr (tt, w1) /\
    run (BindToContext mask) w1 = inr (tt, w2) /\
    run (D3D11BlendState_ctor device desc ;; BindToContext mask) w
      = inr (tt, w2) /\
    (forall i, 0 <= i < 8 ->
       exists mode, Array8.get modes i = Some mode /\ resolves desc i mode) /\
    ctx w2 =
      ctx w ++
      [ setBlendMode 0 (Array8.e0 modes); setBlendMode 1 (Array8.e1 modes);
        setBlendMode 2 (Array8.e2 modes); setBlendMode 3 (Array8.e3 modes);
        setBlendMode 4 (Array8.e4 modes); setBlendMode 5 (Array8.e5 modes);
        setBlendMode 6 (Array8.e6 modes); setBlendMode 7 (Array8.e7 modes);
        setMultisampleState
          {| sampleMask := mask;
             enableAlphaToCoverage := AlphaToCoverageEnable desc;
             enableAlphaToOne := false;
             enableSampleShading := false;
             minSampleShading := float_zero |} ] /\
    (IndependentBlendEnable desc = false ->
       modes = Array8.fill (Array8.e0 modes)) /\
    logger w2 = logger w1 /\
    this w2 = this w1.
Proof.
  destruct (ctor_run desc device w) as (w1 & R1 & _ & _ & Hm & Hc & _ & Hs).
  pose proof (BindToContext_run mask w1) as R2.
  match type of R2 with _ = inr (tt, ?u) => set (w2 := u) in * end.
  exists w1, w2, (m_blendModes (this w1)).
  split; [exact R1 |]. split; [exact R2 |].
  split; [now rewrite run_bind, R1 |].
  split; [exact Hs |].
  split; [subst w2; cbn; rewrite Hc, Hm; reflexivity |].
  split; [intros Hoff; exact (ctor_shared_fill device desc w w1 Hoff R1) |].
  split; reflexivity.
Qed.

Lemma construct_then_bind_witness :
  IndependentBlendEnable shared_desc = false /\
  exists w2,
    run (D3D11BlendState_ctor 4096 shared_desc ;; BindToContext 65535)
        stale_world = inr (tt, w2) /\
    nth_error (ctx w2) 8 =
      Some (setMultisampleState
              {| sampleMask := 65535;
                 enableAlphaToCoverage := true;
                 enableAlphaToOne := false;
                 enableSampleShading := false;
                 minSampleShading := float_zero |}).
Proof.
  split; [reflexivity |].
  destruct (construct_then_bind 4096 shared_desc 65535 stale_world)
    as (w1 & w2 & modes & _ & _ & R & _ & Hctx & _).
  exists w2. split; [exact R |]. rewrite Hctx. reflexivity.
Defined.

Section Rebinding.

Lemma BindToContext_each_run (masks : list Z) :
  forall w : World,
    exists w',
      run (BindToContext_each masks) w = inr (tt, w') /\
      this w' = this w /\ logger w' = logger w /\
      List.length (ctx w') = (List.length (ctx w) + 9 * List.length masks)%nat /\
      exists issued, ctx w' = ctx w ++ issued.
Proof.
  induction masks as [| mask rest IH]; intros w.
  - exists w. cbn. repeat split; try lia. exists []. now rewrite app_nil_r.
  - cbn [BindToContext_each]. rewrite run_bind, BindToContext_run.
    match goal with |- context [run _ ?u] => destruct (IH u)
      as (w' & R & Ht & Hl & Hn & (issued & Hi)) end.
    exists w'. split; [exact R |]. split; [exact Ht |]. split; [exact Hl |].
    split.
    + rewrite Hn. cbn [ctx set_ctx]. rewrite length_app. cbn [List.length]. lia.
    + eexists. rewrite Hi. cbn [ctx set_ctx]. rewrite <- app_assoc. reflexivity.
Qed.

End Rebinding.

(** Binding is repeatable: after construction and any sequence of binds,
    with any masks, the object is the one the constructor left, [GetDesc]
    still returns the constructor's descriptor, the log is the one the
    constructor left, and the context has received exactly nine calls for
    each bind, after the calls it held before. *)
Theorem binds_leave_object_and_descriptor
        (device : D3D11Device_ptr) (desc : D3D11_BLEND_DESC)
        (masks : list Z) (w : World) :
  exists w1 w2,
    run (D3D11BlendState_ctor device desc) w = inr (tt, w1) /\
    run (BindToContext_each masks) w1 = inr (tt, w2) /\
    run (D3D11BlendState_ctor device desc ;; BindToContext_each masks ;;
         GetDesc) w = inr (desc, w2) /\
    this w2 = this w1 /\
    logger w2 = logger w1 /\
    List.length (ctx w2) =
      (List.length (ctx w) + 9 * List.length masks)%nat /\
    exists issued, ctx w2 = ctx w ++ issued.
Proof.
  destruct (ctor_run desc device w) as (w1 & R1 & _ & Hd & _ & Hc & _).
  destruct (BindToContext_each_run masks w1)
    as (w2 & R2 & Ht & Hl & Hn & Hi).
  exists w1, w2. split; [exact R1 |]. split; [exact R2 |].
  split; [| split; [exact Ht |]; split; [exact Hl |]; split].
  - rewrite run_bind, R1, run_bind, R2. unfold GetDesc. rewrite run_read.
    now rewrite Ht, Hd.
  - now rewrite Hn, Hc.
  - now rewrite <- Hc.
Qed.
